(** * The registry scraper: fetch, clean-up and CSV export

    A shallow embedding of [scraper.py]: the paginated registry fetch
    ([get_companies], [format_results], [get_companies_listing]), the
    director clean-up and enrichment pass ([results_cleanup_and_enrich])
    and the CSV export ([write_csv]).

    Modelling choices.
    - A decoded JSON payload is a [value].  A Python [str] is held as its
      UTF-8 encoding in a [string] (one [ascii] per byte), so that
      [unique_str.encode("utf-8")] is the string itself.  JSON numbers are
      integers; registry payloads carry no fractional field that the
      program reads.
    - A Python [dict] is an association list in insertion order, which is
      what [repr] and iteration observe.  Keys are looked up from the
      front; [dict_set] overwrites in place or appends.
    - An exception is an [exn] carrying the class and the text that
      [str(e)] returns (CPython 3.11 wording for the built-in ones).
    - Logging is a writer effect: every [logger] call of the source is a
      [log_event] constructor carrying the interpolated values.
    - The HTTP endpoint and the language-model client are the two external
      collaborators; they are Section variables. *)

From Stdlib Require Import ZArith List String Ascii Bool Lia DecimalString.
Import ListNotations.
Set Warnings "-register-all".
Local Open Scope string_scope.
Local Open Scope list_scope.
Local Open Scope Z_scope.

(** ** Decoded JSON values *)

Inductive value : Type :=
| VNone
| VBool (b : bool)
| VInt (n : Z)
| VStr (s : string)
| VList (l : list value)
| VDict (kv : list (string * value)).

Definition dict := list (string * value).

(** ** Exceptions *)

Inductive exn_class :=
  TypeError | AttributeError | KeyError | ValueError | RequestException | ClientError.

Record exn := Exn { exn_kind : exn_class; exn_msg : string }.

(** [str(e)] *)
Definition str_exn (e : exn) : string := exn_msg e.

Inductive result (A : Type) : Type :=
| Ok (a : A)
| Raise (e : exn).
Arguments Ok {A} a.
Arguments Raise {A} e.

Definition rbind {A B} (r : result A) (f : A -> result B) : result B :=
  match r with
  | Ok a => f a
  | Raise e => Raise e
  end.

Declare Scope result_scope.
Delimit Scope result_scope with result.
Notation "x <- r ;; k" := (rbind r (fun x => k))
  (at level 61, r at next level, right associativity) : result_scope.
Notation "' pat <- r ;; k" := (rbind r (fun x => match x with pat => k end))
  (at level 61, pat pattern, r at next level, right associativity) : result_scope.

(** ** Strings *)

Module Str.

Definition byte_of (c : ascii) : Z := Z.of_N (N_of_ascii c).
Definition char_of (z : Z) : ascii := ascii_of_N (Z.to_N z).

Fixpoint bytes (s : string) : list Z :=
  match s with
  | EmptyString => []
  | String c r => byte_of c :: bytes r
  end.

Fixpoint of_bytes (l : list Z) : string :=
  match l with
  | [] => EmptyString
  | b :: r => String (char_of b) (of_bytes r)
  end.

(** [sub in s] on two [str] *)
Fixpoint contains (sub s : string) : bool :=
  prefix sub s ||
  match s with
  | EmptyString => false
  | String _ r => contains sub r
  end.

Definition is_continuation (c : ascii) : bool :=
  (128 <=? byte_of c) && (byte_of c <? 192).

Definition starts_with_continuation (s : string) : bool :=
  match s with
  | EmptyString => false
  | String c _ => is_continuation c
  end.

(** The characters of a [str], each as a one-character [str]: a lead
    byte together with the continuation bytes that follow it. *)
Fixpoint chars (s : string) : list string :=
  match s with
  | EmptyString => []
  | String c r =>
      if starts_with_continuation r then
        match chars r with
        | g :: gs => String c g :: gs
        | [] => [String c EmptyString]
        end
      else String c EmptyString :: chars r
  end.

Fixpoint join (sep : string) (l : list string) : string :=
  match l with
  | [] => ""
  | [x] => x
  | x :: r => x ++ sep ++ join sep r
  end.

Definition hex_digit (z : Z) : ascii :=
  char_of (if z <? 10 then 48 + z else 87 + z).

(** two lower-case hexadecimal digits of a byte *)
Definition hex2 (b : Z) : string :=
  String (hex_digit (b / 16)) (String (hex_digit (b mod 16)) EmptyString).

(** [s[:n]] *)
Definition take (n : nat) (s : string) : string := substring 0 n s.

End Str.

(** ** Built-in operations on values *)

Definition type_name (v : value) : string :=
  match v with
  | VNone => "NoneType"
  | VBool _ => "bool"
  | VInt _ => "int"
  | VStr _ => "str"
  | VList _ => "list"
  | VDict _ => "dict"
  end.

Fixpoint dict_lookup (k : string) (kv : dict) : option value :=
  match kv with
  | [] => None
  | (k', v) :: r => if String.eqb k k' then Some v else dict_lookup k r
  end.

(** [kv[k] = v] *)
Fixpoint dict_set (k : string) (v : value) (kv : dict) : dict :=
  match kv with
  | [] => [(k, v)]
  | (k', v') :: r =>
      if String.eqb k k' then (k, v) :: r else (k', v') :: dict_set k v r
  end.

(** [kv.get(k, default)] *)
Definition dict_get (kv : dict) (k : string) (default : value) : value :=
  match dict_lookup k kv with
  | Some v => v
  | None => default
  end.

(** [v.get(k, default)]; only a [dict] has the method. *)
Definition py_get (v : value) (k : string) (default : value) : result value :=
  match v with
  | VDict kv => Ok (dict_get kv k default)
  | _ => Raise (Exn AttributeError
                  ("'" ++ type_name v ++ "' object has no attribute 'get'"))
  end.

(** [v == s] for a string constant [s] *)
Definition py_eq_str (v : value) (s : string) : bool :=
  match v with
  | VStr t => String.eqb t s
  | _ => false
  end.

(** [v in l] for a list [l] of string constants *)
Definition py_in_strs (v : value) (l : list string) : bool :=
  existsb (py_eq_str v) l.

(** [k in v] for a string constant [k]: key membership on a [dict],
    element membership on a [list], substring test on a [str]. *)
Definition py_contains (v : value) (k : string) : result bool :=
  match v with
  | VDict kv => Ok (match dict_lookup k kv with Some _ => true | None => false end)
  | VList l => Ok (existsb (fun x => py_eq_str x k) l)
  | VStr s => Ok (Str.contains k s)
  | _ => Raise (Exn TypeError
                  ("argument of type '" ++ type_name v ++ "' is not iterable"))
  end.

(** The elements a [for] loop sees. *)
Definition py_iter (v : value) : result (list value) :=
  match v with
  | VList l => Ok l
  | VDict kv => Ok (map (fun p => VStr (fst p)) kv)
  | VStr s => Ok (map VStr (Str.chars s))
  | _ => Raise (Exn TypeError ("'" ++ type_name v ++ "' object is not iterable"))
  end.

(** [v[k] = x] for a string key [k] *)
Definition py_setitem (v : value) (k : string) (x : value) : result value :=
  match v with
  | VDict kv => Ok (VDict (dict_set k x kv))
  | VList _ => Raise (Exn TypeError "list indices must be integers or slices, not str")
  | _ => Raise (Exn TypeError
                  ("'" ++ type_name v ++ "' object does not support item assignment"))
  end.

(** The integer a [bool] or [int] stands for in [v > 1] and [v + 1];
    every other value makes the comparison raise. *)
Definition py_gt_operand (v : value) : result Z :=
  match v with
  | VInt n => Ok n
  | VBool b => Ok (if b then 1 else 0)
  | _ => Raise (Exn TypeError
                  ("'>' not supported between instances of '" ++ type_name v
                   ++ "' and 'int'"))
  end.

(** [range(lo, hi)] *)
Definition py_range (lo hi : Z) : list Z :=
  map (fun i => lo + Z.of_nat i) (seq 0 (Z.to_nat (hi - lo))).

(** *** [str()] and [repr()] *)

Definition str_int (n : Z) : string := NilZero.string_of_int (Z.to_int n).

Definition double_quote : ascii := Str.char_of 34.

Definition has_char (c : ascii) (s : string) : bool :=
  existsb (fun b => b =? Str.byte_of c) (Str.bytes s).

(** One character inside a [repr] delimited by [quote].  Bytes above 127
    belong to non-ASCII characters, which [repr] leaves as they are when
    printable. *)
Definition repr_char (quote : ascii) (c : ascii) : string :=
  let b := Str.byte_of c in
  if Ascii.eqb c quote then String "\" (String c "")
  else if b =? 92 then "\\"
  else if b =? 9 then "\t"
  else if b =? 10 then "\n"
  else if b =? 13 then "\r"
  else if (b <? 32) || (b =? 127) then "\x" ++ Str.hex2 b
  else String c "".

Fixpoint repr_chars (quote : ascii) (s : string) : string :=
  match s with
  | EmptyString => ""
  | String c r => repr_char quote c ++ repr_chars quote r
  end.

Definition repr_str (s : string) : string :=
  let quote :=
    if has_char "'" s && negb (has_char double_quote s) then double_quote else "'"%char in
  String quote (repr_chars quote s ++ String quote "").

Fixpoint py_repr (v : value) : string :=
  match v with
  | VNone => "None"
  | VBool b => if b then "True" else "False"
  | VInt n => str_int n
  | VStr s => repr_str s
  | VList l => ("[" ++ Str.join ", " (map py_repr l) ++ "]")%string
  | VDict kv =>
      ("{" ++ Str.join ", "
               (map (fun p => (repr_str (fst p) ++ ": " ++ py_repr (snd p))%string) kv)
          ++ "}")%string
  end.

(** What an f-string interpolates for [{v}]. *)
Definition py_str (v : value) : string :=
  match v with
  | VStr s => s
  | _ => py_repr v
  end.

(** [v[k]] for a string key [k] *)
Definition py_getitem (v : value) (k : string) : result value :=
  match v with
  | VDict kv =>
      match dict_lookup k kv with
      | Some x => Ok x
      | None => Raise (Exn KeyError (repr_str k))
      end
  | VStr _ => Raise (Exn TypeError "string indices must be integers, not 'str'")
  | VList _ => Raise (Exn TypeError "list indices must be integers or slices, not str")
  | _ => Raise (Exn TypeError ("'" ++ type_name v ++ "' object is not subscriptable"))
  end.

(** ** MD5 (RFC 1321), as [hashlib.md5(data).hexdigest()] *)

Module MD5.

Definition mask32 (x : Z) : Z := Z.land x 0xffffffff.

Definition rotl32 (x c : Z) : Z :=
  mask32 (Z.lor (Z.shiftl x c) (Z.shiftr x (32 - c))).

Definition not32 (x : Z) : Z := Z.lxor x 0xffffffff.

Definition shifts : list Z :=
  [7; 12; 17; 22; 7; 12; 17; 22; 7; 12; 17; 22; 7; 12; 17; 22;
   5; 9; 14; 20; 5; 9; 14; 20; 5; 9; 14; 20; 5; 9; 14; 20;
   4; 11; 16; 23; 4; 11; 16; 23; 4; 11; 16; 23; 4; 11; 16; 23;
   6; 10; 15; 21; 6; 10; 15; 21; 6; 10; 15; 21; 6; 10; 15; 21].

(** floor(2^32 * |sin(i + 1)|) *)
Definition sines : list Z :=
  [0xd76aa478; 0xe8c7b756; 0x242070db; 0xc1bdceee;
   0xf57c0faf; 0x4787c62a; 0xa8304613; 0xfd469501;
   0x698098d8; 0x8b44f7af; 0xffff5bb1; 0x895cd7be;
   0x6b901122; 0xfd987193; 0xa679438e; 0x49b40821;
   0xf61e2562; 0xc040b340; 0x265e5a51; 0xe9b6c7aa;
   0xd62f105d; 0x02441453; 0xd8a1e681; 0xe7d3fbc8;
   0x21e1cde6; 0xc33707d6; 0xf4d50d87; 0x455a14ed;
   0xa9e3e905; 0xfcefa3f8; 0x676f02d9; 0x8d2a4c8a;
   0xfffa3942; 0x8771f681; 0x6d9d6122; 0xfde5380c;
   0xa4beea44; 0x4bdecfa9; 0xf6bb4b60; 0xbebfbc70;
   0x289b7ec6; 0xeaa127fa; 0xd4ef3085; 0x04881d05;
   0xd9d4d039; 0xe6db99e5; 0x1fa27cf8; 0xc4ac5665;
   0xf4292244; 0x432aff97; 0xab9423a7; 0xfc93a039;
   0x655b59c3; 0x8f0ccc92; 0xffeff47d; 0x85845dd1;
   0x6fa87e4f; 0xfe2ce6e0; 0xa3014314; 0x4e0811a1;
   0xf7537e82; 0xbd3af235; 0x2ad7d2bb; 0xeb86d391].

Record state := State { sA : Z; sB : Z; sC : Z; sD : Z }.

Definition init : state :=
  State 0x67452301 0xefcdab89 0x98badcfe 0x10325476.

(** little-endian 32-bit words of a byte list *)
Fixpoint words (l : list Z) : list Z :=
  match l with
  | b0 :: b1 :: b2 :: b3 :: r =>
      (b0 + Z.shiftl b1 8 + Z.shiftl b2 16 + Z.shiftl b3 24) :: words r
  | _ => []
  end.

Definition word_bytes (w : Z) : list Z :=
  [Z.land w 255; Z.land (Z.shiftr w 8) 255;
   Z.land (Z.shiftr w 16) 255; Z.land (Z.shiftr w 24) 255].

(** the message followed by 0x80, zeros up to 56 modulo 64, and the bit
    length on 64 bits, little-endian *)
Definition pad (msg : list Z) : list Z :=
  let len := Z.of_nat (List.length msg) in
  let zeros := Z.to_nat ((55 - len) mod 64) in
  let bits := (8 * len) mod 2 ^ 64 in
  msg ++ [128] ++ repeat 0 zeros
      ++ word_bytes (Z.land bits 0xffffffff) ++ word_bytes (Z.shiftr bits 32).

Definition step (m : list Z) (st : state) (i : Z) : state :=
  let '(State a b c d) := st in
  let '(f, g) :=
    if i <? 16 then (Z.lor (Z.land b c) (Z.land (not32 b) d), i)
    else if i <? 32 then (Z.lor (Z.land d b) (Z.land (not32 d) c), (5 * i + 1) mod 16)
    else if i <? 48 then (Z.lxor (Z.lxor b c) d, (3 * i + 5) mod 16)
    else (Z.lxor c (Z.lor b (not32 d)), (7 * i) mod 16) in
  let f' := mask32 (f + a + nth (Z.to_nat i) sines 0 + nth (Z.to_nat g) m 0) in
  State d (mask32 (b + rotl32 f' (nth (Z.to_nat i) shifts 0))) b c.

Definition compress (st : state) (m : list Z) : state :=
  let '(State a b c d) := fold_left (step m) (py_range 0 64) st in
  State (mask32 (sA st + a)) (mask32 (sB st + b))
        (mask32 (sC st + c)) (mask32 (sD st + d)).

(** the 16-word blocks of a word list *)
Fixpoint blocks (fuel : nat) (ws : list Z) : list (list Z) :=
  match fuel, ws with
  | S fuel', _ :: _ => firstn 16 ws :: blocks fuel' (skipn 16 ws)
  | _, _ => []
  end.

Definition digest (msg : list Z) : list Z :=
  let ws := words (pad msg) in
  let '(State a b c d) := fold_left compress (blocks (List.length ws) ws) init in
  word_bytes a ++ word_bytes b ++ word_bytes c ++ word_bytes d.

Definition hexdigest (s : string) : string :=
  String.concat "" (map Str.hex2 (digest (Str.bytes s))).

End MD5.

(** ** Logging and the effect monad *)

(** One constructor per [logger] call of the source. *)
Inductive log_event : Type :=
| LogSearching (naf : string) (postal_code departement : option string)
| LogErrorFetching (e : exn)
| LogFetchingPage (page_num total_pages : Z)
| LogReturning (count : nat) (total_pages : value)
| LogErrorListing (e : exn)
| LogIdentifying (count : nat)
| LogConsumed (total_tokens : Z)
| LogNoDirigeants
| LogErrorIdentifying (e : exn)
| LogCsvWritten (filename : string).

(** A computation that logs and then returns or raises. *)
Definition M (A : Type) : Type := (list log_event * result A)%type.

Definition ret {A} (a : A) : M A := ([], Ok a).

Definition bind {A B} (m : M A) (f : A -> M B) : M B :=
  match m with
  | (l, Ok a) => let '(l', r) := f a in (l ++ l', r)
  | (l, Raise e) => (l, Raise e)
  end.

Definition lift {A} (r : result A) : M A := ([], r).

Definition log (ev : log_event) : M unit := ([ev], Ok tt).

(** [try: body except Exception as e: handler(e)] *)
Definition try_except {A} (body : M A) (handler : exn -> M A) : M A :=
  match body with
  | (l, Ok a) => (l, Ok a)
  | (l, Raise e) => let '(l', r) := handler e in (l ++ l', r)
  end.

Declare Scope M_scope.
Delimit Scope M_scope with M.
Notation "x <- m ;; k" := (bind m (fun x => k))
  (at level 61, m at next level, right associativity) : M_scope.
Notation "m ;; k" := (bind m (fun _ => k))
  (at level 61, right associativity) : M_scope.

Fixpoint mapM {A B} (f : A -> result B) (l : list A) : result (list B) :=
  match l with
  | [] => Ok []
  | x :: r => (y <- f x ;; ys <- mapM f r ;; Ok (y :: ys))%result
  end.

(** ** The registry client and the aggregator *)

Definition BASE_URL : string := "https://recherche-entreprises.api.gouv.fr/search".
Definition NATURE_JURIDIQUE : string := "5499,5410,5710".
Definition PER_PAGE : Z := 25.

(** The query string of one request. *)
Record params := Params {
  activite_principale : string;
  code_postal : option string;
  departement : option string;
  etat_administratif : string;
  nature_juridique : string;
  per_page : Z;
  page : Z
}.

(** [format_results]: one record per raw company object. *)
Definition format_company (company : value) : result value :=
  (siren <- py_get company "siren" VNone ;;
   nom_complet <- py_get company "nom_complet" VNone ;;
   nom_raison_sociale <- py_get company "nom_raison_sociale" VNone ;;
   activite <- py_get company "activite_principale" VNone ;;
   dirigeants <- py_get company "dirigeants" (VList []) ;;
   siege1 <- py_get company "siege" (VDict []) ;;
   adresse <- py_get siege1 "adresse" (VStr "") ;;
   siege2 <- py_get company "siege" (VDict []) ;;
   code_postal <- py_get siege2 "code_postal" (VStr "") ;;
   siege3 <- py_get company "siege" (VDict []) ;;
   libelle_commune <- py_get siege3 "libelle_commune" (VStr "") ;;
   date_creation <- py_get company "date_creation" VNone ;;
   nature <- py_get company "nature_juridique" VNone ;;
   Ok (VDict [("siren", siren);
              ("nom_complet", nom_complet);
              ("nom_raison_sociale", nom_raison_sociale);
              ("activite_principale", activite);
              ("dirigeants", dirigeants);
              ("adresse", adresse);
              ("code_postal", code_postal);
              ("libelle_commune", libelle_commune);
              ("date_creation", date_creation);
              ("nature_juridique", nature)]))%result.

Definition format_results (companies : value) : result (list value) :=
  (results <- py_get companies "results" (VList []) ;;
   items <- py_iter results ;;
   mapM format_company items)%result.

(** The [params] dictionary of [get_companies]. *)
Definition request (naf nature_juridique : string)
    (postal_code departement : option string) (page : Z) : params :=
  {| activite_principale := naf;
     code_postal := postal_code;
     departement := departement;
     etat_administratif := "A";
     nature_juridique := nature_juridique;
     per_page := PER_PAGE;
     page := page |}.

Section Registry.

(** [requests.get(BASE_URL, params=params, timeout=10)] followed by
    [raise_for_status()] and [json()]: the decoded payload, or the
    exception one of the three raised. *)
Variable requests_get : params -> result value.

Definition get_companies (naf nature_juridique : string)
    (postal_code departement : option string) (page : Z) : M value :=
  let params := request naf nature_juridique postal_code departement page in
  try_except (lift (requests_get params))
    (fun e =>
       (log (LogErrorFetching e) ;;
        ret (VDict [("results", VList []); ("error", VStr (str_exn e))]))%M).

Definition type_entreprises (allow_entrepreneur_individuel : bool) : string :=
  if allow_entrepreneur_individuel
  then (NATURE_JURIDIQUE ++ ",1000")%string
  else NATURE_JURIDIQUE.

(** The body of [for page_num in range(2, total_pages + 1)]. *)
Fixpoint fetch_pages (naf nature : string) (postal_code departement : option string)
    (total_pages : Z) (pages : list Z) (all_results : list value)
    : M (list value) :=
  match pages with
  | [] => ret all_results
  | page_num :: rest =>
      (log (LogFetchingPage page_num total_pages) ;;
       page_data <- get_companies naf nature postal_code departement page_num ;;
       formatted <- lift (format_results page_data) ;;
       fetch_pages naf nature postal_code departement total_pages rest
                   (all_results ++ formatted))%M
  end.

Definition get_companies_listing (naf : string)
    (postal_code departement : option string)
    (allow_entrepreneur_individuel : bool) : M value :=
  (log (LogSearching naf postal_code departement) ;;
   let nature := type_entreprises allow_entrepreneur_individuel in
   try_except
     (data <- get_companies naf nature postal_code departement 1 ;;
      total_pages <- lift (py_get data "total_pages" (VInt 1)) ;;
      first_page <- lift (format_results data) ;;
      n <- lift (py_gt_operand total_pages) ;;
      all_results <-
        (if n >? 1
         then fetch_pages naf nature postal_code departement n
                          (py_range 2 (n + 1)) first_page
         else ret first_page) ;;
      log (LogReturning (List.length all_results) total_pages) ;;
      ret (VDict [("results_count", VInt (Z.of_nat (List.length all_results)));
                  ("results", VList all_results)]))
     (fun e =>
        log (LogErrorListing e) ;;
        ret (VList [VDict [("error", VStr (str_exn e))]])))%M.

End Registry.

(** ** The enrichment pipeline *)

(** The third entry is spelled as the source file spells it: the bytes
    c3 83 c2 a9 where the registry's own label has the single character
    c3 a9. *)
Definition FILTRE_QUALITE : list string :=
  ["Liquidateur";
   "Commissaire aux comptes titulaire";
   "Commissaire aux comptes supplÃ©ant"].

Record OrigineTurc := { id : string; origine_turque : bool }.

(** What the program reads of a parsed model response. *)
Record parsed_response := {
  total_tokens : Z;
  output_parsed_results : list OrigineTurc
}.

(** The condition of the list comprehension; [and] evaluates its right
    operand only when the left one holds. *)
Definition keep_dirigeant (d : value) : result bool :=
  (type_dirigeant <- py_get d "type_dirigeant" VNone ;;
   if py_eq_str type_dirigeant "personne physique"
   then qualite <- py_get d "qualite" VNone ;;
        Ok (negb (py_in_strs qualite FILTRE_QUALITE))
   else Ok false)%result.

Fixpoint filterM {A} (f : A -> result bool) (l : list A) : result (list A) :=
  match l with
  | [] => Ok []
  | x :: r =>
      (b <- f x ;; ys <- filterM f r ;; Ok (if b then x :: ys else ys))%result
  end.

(** [hashlib.md5(unique_str.encode("utf-8")).hexdigest()[:8]] *)
Definition short_hash (unique_str : string) : string :=
  Str.take 8 (MD5.hexdigest unique_str).

(** One turn of [for dirigeant in dirigeants]: the director with its
    identifier set, and the entry appended to [all_dirigeants]. *)
Definition assign_id (dirigeant : value) : result (value * value) :=
  (nom <- py_get dirigeant "nom" (VStr "") ;;
   prenoms <- py_get dirigeant "prenoms" (VStr "") ;;
   let unique_str := (py_str nom ++ py_str prenoms)%string in
   dirigeant' <- py_setitem dirigeant "id" (VStr (short_hash unique_str)) ;;
   ident <- py_getitem dirigeant' "id" ;;
   nom' <- py_get dirigeant' "nom" (VStr "") ;;
   prenoms' <- py_get dirigeant' "prenoms" (VStr "") ;;
   Ok (dirigeant', VDict [("id", ident); ("nom", nom'); ("prenoms", prenoms')]))%result.

(** One turn of [for company in companies]: the entry appended to
    [cleaned] and the entries appended to [all_dirigeants]. *)
Definition cleanup_company (company : value) : result (value * list value) :=
  (is_error <- py_contains company "error" ;;
   if (is_error : bool) then Ok (company, [])
   else
     raw <- py_get company "dirigeants" (VList []) ;;
     items <- py_iter raw ;;
     dirigeants <- filterM keep_dirigeant items ;;
     pairs <- mapM assign_id dirigeants ;;
     company' <- py_setitem company "dirigeants" (VList (map fst pairs)) ;;
     Ok (company', map snd pairs))%result.

(** The first loop: [(cleaned, all_dirigeants)].  It runs outside any
    [try], so an exception leaves the function. *)
Fixpoint cleanup_loop (companies : list value) : result (list value * list value) :=
  match companies with
  | [] => Ok ([], [])
  | company :: rest =>
      (head <- cleanup_company company ;;
       tail <- cleanup_loop rest ;;
       Ok (fst head :: fst tail, snd head ++ snd tail))%result
  end.

(** [next((item for item in turkish_origins if item.id == key), None)] *)
Definition find_match (turkish_origins : list OrigineTurc) (key : value)
    : option OrigineTurc :=
  find (fun item => py_eq_str key (id item)) turkish_origins.

(** The body of the inner classification loop.  The generator evaluates
    [dirigeant["id"]] once per item, hence not at all on an empty list. *)
Definition classify_dirigeant (turkish_origins : list OrigineTurc)
    (dirigeant : value) : result value :=
  (found <- match turkish_origins with
            | [] => Ok None
            | _ :: _ => key <- py_getitem dirigeant "id" ;;
                        Ok (find_match turkish_origins key)
            end ;;
   match found with
   | Some item => py_setitem dirigeant "origine_turque" (VBool (origine_turque item))
   | None => py_setitem dirigeant "origine_turque" (VBool false)
   end)%result.

(** The classification loops mutate the directors in place inside a
    [try]: when a turn raises, the turns already done stay done.  Each
    loop returns the records as they stand together with the exception
    that stopped it, if any. *)
Fixpoint classify_dirigeants (turkish_origins : list OrigineTurc)
    (dirigeants : list value) : list value * option exn :=
  match dirigeants with
  | [] => ([], None)
  | d :: rest =>
      match classify_dirigeant turkish_origins d with
      | Raise e => (d :: rest, Some e)
      | Ok d' =>
          let '(rest', failure) := classify_dirigeants turkish_origins rest in
          (d' :: rest', failure)
      end
  end.

(** The director list of [company] after its elements were updated.  Only
    the elements of a [list] are shared with the company; the items that
    iterating a [dict] or a [str] yields are temporaries. *)
Definition store_dirigeants (company : value) (dirigeants : list value) : value :=
  match company with
  | VDict kv =>
      match dict_lookup "dirigeants" kv with
      | Some (VList _) => VDict (dict_set "dirigeants" (VList dirigeants) kv)
      | _ => company
      end
  | _ => company
  end.

Definition classify_company (turkish_origins : list OrigineTurc)
    (company : value) : value * option exn :=
  match (raw <- py_get company "dirigeants" (VList []) ;; py_iter raw)%result with
  | Raise e => (company, Some e)
  | Ok items =>
      let '(items', failure) := classify_dirigeants turkish_origins items in
      (store_dirigeants company items', failure)
  end.

Fixpoint classify_companies (turkish_origins : list OrigineTurc)
    (cleaned : list value) : list value * option exn :=
  match cleaned with
  | [] => ([], None)
  | company :: rest =>
      match classify_company turkish_origins company with
      | (company', Some e) => (company' :: rest, Some e)
      | (company', None) =>
          let '(rest', failure) := classify_companies turkish_origins rest in
          (company' :: rest', failure)
      end
  end.

(** The outcome of a computation as a value, for [try] blocks. *)
Definition attempt {A} (m : M A) : M (result A) := (fst m, Ok (snd m)).

Section Enrichment.

(** [client.responses.parse(model=..., input=[SYSTEM_PROMPT,
    json.dumps(names)], text_format=OrigineTurcResponse)], read through
    [usage.total_tokens] and [output_parsed.results]; or the exception
    raised on the way. *)
Variable responses_parse : list value -> result parsed_response.

Definition identify_turkish_names (names : list value) : M (list OrigineTurc) :=
  (log (LogIdentifying (List.length names)) ;;
   response <- lift (responses_parse names) ;;
   log (LogConsumed (total_tokens response)) ;;
   ret (output_parsed_results response))%M.

Definition results_cleanup_and_enrich (companies : list value)
    (check_turkish_names : bool) : M (list value) :=
  (state <- lift (cleanup_loop companies) ;;
   let cleaned := fst state in
   let all_dirigeants := snd state in
   if check_turkish_names then
     match all_dirigeants with
     | [] => log LogNoDirigeants ;; ret cleaned
     | _ :: _ =>
         answer <- attempt (identify_turkish_names all_dirigeants) ;;
         match answer with
         | Raise e => log (LogErrorIdentifying e) ;; ret cleaned
         | Ok turkish_origins =>
             match classify_companies turkish_origins cleaned with
             | (cleaned', Some e) => log (LogErrorIdentifying e) ;; ret cleaned'
             | (cleaned', None) => ret cleaned'
             end
         end
     end
   else ret cleaned)%M.

End Enrichment.

(** ** The CSV exporter *)

Definition headers : list string :=
  ["dirigeant_nom";
   "dirigeant_prenoms";
   "dirigeant_date_de_naissance";
   "dirigeant_qualite";
   "dirigeant_origine_turque";
   "dirigeant_nationalite";
   "siren";
   "nom_complet";
   "activite_principale";
   "adresse";
   "code_postal";
   "libelle_commune";
   "date_creation";
   "nature_juridique"].

(** A row handed to the underlying [csv] writer: one cell per column. *)
Definition row := list value.

(** The text the [csv] writer makes of a cell, before quoting. *)
Definition cell_text (v : value) : string :=
  match v with
  | VNone => ""
  | _ => py_str v
  end.

Definition company_data (company : value) : result dict :=
  (siren <- py_get company "siren" (VStr "") ;;
   nom_complet <- py_get company "nom_complet" (VStr "") ;;
   activite <- py_get company "activite_principale" (VStr "") ;;
   adresse <- py_get company "adresse" (VStr "") ;;
   code_postal <- py_get company "code_postal" (VStr "") ;;
   libelle_commune <- py_get company "libelle_commune" (VStr "") ;;
   date_creation <- py_get company "date_creation" (VStr "") ;;
   nature <- py_get company "nature_juridique" (VStr "") ;;
   Ok [("siren", siren);
       ("nom_complet", nom_complet);
       ("activite_principale", activite);
       ("adresse", adresse);
       ("code_postal", code_postal);
       ("libelle_commune", libelle_commune);
       ("date_creation", date_creation);
       ("nature_juridique", nature)])%result.

Definition dirigeant_data (dirigeant : value) : result dict :=
  (nom <- py_get dirigeant "nom" (VStr "") ;;
   prenoms <- py_get dirigeant "prenoms" (VStr "") ;;
   date_de_naissance <- py_get dirigeant "date_de_naissance" (VStr "") ;;
   qualite <- py_get dirigeant "qualite" (VStr "") ;;
   origine <- py_get dirigeant "origine_turque" (VBool false) ;;
   Ok [("dirigeant_nom", nom);
       ("dirigeant_prenoms", prenoms);
       ("dirigeant_date_de_naissance", date_de_naissance);
       ("dirigeant_qualite", qualite);
       ("dirigeant_origine_turque", origine)])%result.

(** [{**a, **b}] *)
Definition dict_merge (a b : dict) : dict :=
  fold_left (fun acc p => dict_set (fst p) (snd p) acc) b a.

(** [DictWriter.writerow] with [fieldnames=headers], the default
    [restval=''] and [extrasaction='raise']: the cells in column order. *)
Definition dict_to_row (rowdict : dict) : result row :=
  if forallb (fun p => existsb (String.eqb (fst p)) headers) rowdict
  then Ok (map (fun h => dict_get rowdict h (VStr "")) headers)
  else Raise (Exn ValueError "dict contains fields not in fieldnames").

(** [DictWriter.writeheader] *)
Definition header_row : row := map VStr headers.

(** The rows written for one company, with the exception that stopped the
    inner loop, if any: rows already written stay in the file. *)
Fixpoint write_dirigeants (company_fields : dict) (dirigeants : list value)
    : list row * result unit :=
  match dirigeants with
  | [] => ([], Ok tt)
  | dirigeant :: rest =>
      match (fields <- dirigeant_data dirigeant ;;
             dict_to_row (dict_merge fields company_fields))%result with
      | Raise e => ([], Raise e)
      | Ok r =>
          let '(rows, outcome) := write_dirigeants company_fields rest in
          (r :: rows, outcome)
      end
  end.

Fixpoint write_companies (companies : list value) : list row * result unit :=
  match companies with
  | [] => ([], Ok tt)
  | company :: rest =>
      match (fields <- company_data company ;;
             raw <- py_get company "dirigeants" (VList []) ;;
             items <- py_iter raw ;;
             Ok (fields, items))%result with
      | Raise e => ([], Raise e)
      | Ok (fields, items) =>
          match write_dirigeants fields items with
          | (rows, Raise e) => (rows, Raise e)
          | (rows, Ok _) =>
              let '(rows', outcome) := write_companies rest in
              (rows ++ rows', outcome)
          end
      end
  end.

(** What one call leaves behind: the rows of the file under
    [data_output/filename], and the log with the outcome.  The file system
    is taken to accept the directory, the file and every write. *)
Record csv_run := {
  csv_filename : string;
  csv_rows : list row;
  csv_outcome : M unit
}.

Definition write_csv (companies : list value) (filename : string) : csv_run :=
  let '(rows, outcome) := write_companies companies in
  {| csv_filename := filename;
     csv_rows := header_row :: rows;
     csv_outcome := (lift outcome ;; log (LogCsvWritten filename))%M |}.

(** The data rows: everything after the header. *)
Definition data_rows (run : csv_run) : list row := tl (csv_rows run).

(** The cell of a row under a column name. *)
Definition cell (r : row) (column : string) : option value :=
  dict_lookup column (combine headers r).

(** ** Reading the records *)

(** Whether [company] passes the test ["error" in company]. *)
Definition is_error_entry (company : value) : bool :=
  match py_contains company "error" with
  | Ok b => b
  | Raise _ => false
  end.

(** The director list a company record holds. *)
Definition dirigeants_of (company : value) : list value :=
  match company with
  | VDict kv =>
      match dict_lookup "dirigeants" kv with
      | Some (VList l) => l
      | _ => []
      end
  | _ => []
  end.

(** The value a record holds under a key, if any. *)
Definition field (record : value) (k : string) : option value :=
  match record with
  | VDict kv => dict_lookup k kv
  | _ => None
  end.

Definition is_dict (v : value) : bool :=
  match v with
  | VDict _ => true
  | _ => false
  end.

(** Whether the list comprehension keeps [d]. *)
Definition keeps (d : value) : bool :=
  match keep_dirigeant d with
  | Ok b => b
  | Raise _ => false
  end.

(** A director with its identifier set. *)
Definition with_id (d : value) : value :=
  match d with
  | VDict kv =>
      VDict (dict_set "id"
               (VStr (short_hash (py_str (dict_get kv "nom" (VStr ""))
                                  ++ py_str (dict_get kv "prenoms" (VStr "")))))
               kv)
  | _ => d
  end.

(** The entry of [all_dirigeants] made from a director. *)
Definition entry_of (d : value) : value :=
  match d with
  | VDict kv =>
      VDict [("id", dict_get kv "id" VNone);
             ("nom", dict_get kv "nom" (VStr ""));
             ("prenoms", dict_get kv "prenoms" (VStr ""))]
  | _ => VNone
  end.

(** The entries of [all_dirigeants] that a cleaned record accounts for. *)
Definition entries_of (company : value) : list value :=
  if is_error_entry company then [] else map entry_of (dirigeants_of company).

(** The identifier an entry of [all_dirigeants] carries. *)
Definition entry_id (entry : value) : option value := field entry "id".

(** A returned record whose origin flag is the one its director had
    before the call. *)
Definition origin_flag_untouched (before after : value) : Prop :=
  if is_error_entry before then after = before
  else forall d', In d' (dirigeants_of after) ->
       exists d, In d (dirigeants_of before) /\ d' = with_id d /\
                 field d' "origine_turque" = field d "origine_turque".

(** ** Shapes of payloads and records *)

(** The fields of a normalized record, in the order of the literal. *)
Definition record_fields : list string :=
  ["siren"; "nom_complet"; "nom_raison_sociale"; "activite_principale";
   "dirigeants"; "adresse"; "code_postal"; "libelle_commune";
   "date_creation"; "nature_juridique"].

(** The fields read with a bare [company.get(k)]. *)
Definition plain_fields : list string :=
  ["siren"; "nom_complet"; "nom_raison_sociale"; "activite_principale";
   "date_creation"; "nature_juridique"].

(** The fields read from the nested [siege] object. *)
Definition address_fields : list string :=
  ["adresse"; "code_postal"; "libelle_commune"].

(** The raw company objects of a payload. *)
Definition raw_companies (payload : value) : result (list value) :=
  (results <- py_get payload "results" (VList []) ;; py_iter results)%result.

(** A raw company object that normalizes: a record whose [siege], when
    present, is a record too. *)
Definition raw_company_wf (raw : value) : bool :=
  match raw with
  | VDict kv => is_dict (dict_get kv "siege" (VDict []))
  | _ => false
  end.

Definition or_default (found : option value) (default : value) : value :=
  match found with
  | Some v => v
  | None => default
  end.

(** [record] is the normalization of [raw]: the ten fields in order, each
    copied from the payload when present, and otherwise [None] for a plain
    field, the empty list for the directors and the empty string for an
    address field. *)
Definition normalized (raw record : value) : Prop :=
  exists kv siege fields,
    raw = VDict kv /\ record = VDict fields /\
    dict_get kv "siege" (VDict []) = VDict siege /\
    map fst fields = record_fields /\
    (forall k, In k plain_fields ->
       dict_lookup k fields = Some (or_default (dict_lookup k kv) VNone)) /\
    dict_lookup "dirigeants" fields
    = Some (or_default (dict_lookup "dirigeants" kv) (VList [])) /\
    (forall k, In k address_fields ->
       dict_lookup k fields = Some (or_default (dict_lookup k siege) (VStr ""))).

(** An entry of the list given to [write_csv] that the loops accept: a
    record whose director list, when present, is a list of records. *)
Definition company_wf (company : value) : bool :=
  match company with
  | VDict kv =>
      match dict_lookup "dirigeants" kv with
      | None => true
      | Some (VList l) => forallb is_dict l
      | Some _ => false
      end
  | _ => false
  end.

(** An error descriptor: a record with an ["error"] key and no director
    list. *)
Definition is_error_descriptor (entry : value) : bool :=
  match entry with
  | VDict kv =>
      match dict_lookup "error" kv, dict_lookup "dirigeants" kv with
      | Some _, None => true
      | _, _ => false
      end
  | _ => false
  end.

(** The cells written for a director of a company. *)
Definition row_of (company dirigeant : value) : row :=
  match company, dirigeant with
  | VDict c, VDict d =>
      [dict_get d "nom" (VStr "");
       dict_get d "prenoms" (VStr "");
       dict_get d "date_de_naissance" (VStr "");
       dict_get d "qualite" (VStr "");
       dict_get d "origine_turque" (VBool false);
       VStr "";
       dict_get c "siren" (VStr "");
       dict_get c "nom_complet" (VStr "");
       dict_get c "activite_principale" (VStr "");
       dict_get c "adresse" (VStr "");
       dict_get c "code_postal" (VStr "");
       dict_get c "libelle_commune" (VStr "");
       dict_get c "date_creation" (VStr "");
       dict_get c "nature_juridique" (VStr "")]
  | _, _ => []
  end.

(** A director as the classification loop may leave it: still a record,
    with every field but the origin flag as before. *)
Definition same_but_origin (before after : value) : Prop :=
  (is_dict before = true -> is_dict after = true) /\
  forall k, k <> "origine_turque" -> field after k = field before k.

(** A director that the filter of the source lets through. *)
Definition passes_filter (d : value) : Prop :=
  field d "type_dirigeant" = Some (VStr "personne physique") /\
  py_in_strs (or_default (field d "qualite") VNone) FILTRE_QUALITE = false.

(** What one turn of the first loop does to a record. *)
Inductive cleaned_from : value -> value -> list value -> Prop :=
| cleaned_error company :
    is_error_entry company = true ->
    cleaned_from company company []
| cleaned_company kv items :
    is_error_entry (VDict kv) = false ->
    py_iter (dict_get kv "dirigeants" (VList [])) = Ok items ->
    Forall (fun d => is_dict d = true) items ->
    let kept := map with_id (filter keeps items) in
    cleaned_from (VDict kv)
                 (VDict (dict_set "dirigeants" (VList kept) kv))
                 (map entry_of kept).

(** What the classification of one record can change. *)
Inductive classified_from : value -> value -> Prop :=
| classified_same company : classified_from company company
| classified_dirigeants kv l l' :
    dict_lookup "dirigeants" kv = Some (VList l) ->
    Forall2 same_but_origin l l' ->
    classified_from (VDict kv) (VDict (dict_set "dirigeants" (VList l') kv)).

(** ** Sample data *)

Definition gerant : value :=
  VDict [("nom", VStr "YILMAZ");
         ("prenoms", VStr "Mehmet");
         ("date_de_naissance", VStr "1975-03");
         ("qualite", VStr "Gérant");
         ("type_dirigeant", VStr "personne physique");
         ("nationalite", VStr "Turque")].

Definition liquidateur : value :=
  VDict [("nom", VStr "DURAND");
         ("prenoms", VStr "Claire");
         ("qualite", VStr "Liquidateur");
         ("type_dirigeant", VStr "personne physique")].

(** An alternate auditor, with the role spelled as the registry spells it. *)
Definition suppleant : value :=
  VDict [("nom", VStr "MARTIN");
         ("prenoms", VStr "Paul");
         ("qualite", VStr "Commissaire aux comptes suppléant");
         ("type_dirigeant", VStr "personne physique")].

(** A record of the shape [format_results] builds. *)
Definition sample_company (siren nom : string) (dirigeants : list value) : value :=
  VDict [("siren", VStr siren);
         ("nom_complet", VStr nom);
         ("nom_raison_sociale", VStr nom);
         ("activite_principale", VStr "43.99A");
         ("dirigeants", VList dirigeants);
         ("adresse", VStr "1 RUE DE LA PAIX 75002 PARIS");
         ("code_postal", VStr "75002");
         ("libelle_commune", VStr "PARIS");
         ("date_creation", VStr "2010-01-01");
         ("nature_juridique", VStr "5499")].

(** [d] with the identifier [ident] appended, as the first loop leaves it. *)
Definition identified (d : value) (ident : string) : value :=
  match d with
  | VDict kv => VDict (kv ++ [("id", VStr ident)])
  | _ => d
  end.

Definition sample_entry (ident nom prenoms : string) : value :=
  VDict [("id", VStr ident); ("nom", VStr nom); ("prenoms", VStr prenoms)].

(** Two companies run by the same person. *)
Definition shared_director_companies : list value :=
  [sample_company "111111111" "ALPHA" [gerant];
   sample_company "222222222" "BETA" [gerant]].

Definition shared_director_cleaned : list value :=
  [sample_company "111111111" "ALPHA" [identified gerant "822e7662"];
   sample_company "222222222" "BETA" [identified gerant "822e7662"]].

Definition shared_director_entries : list value :=
  [sample_entry "822e7662" "YILMAZ" "Mehmet";
   sample_entry "822e7662" "YILMAZ" "Mehmet"].

(** One company with a manager and a liquidator, one without directors. *)
Definition mixed_companies : list value :=
  [sample_company "111111111" "ALPHA" [gerant; liquidateur];
   sample_company "333333333" "GAMMA" []].

Definition mixed_cleaned : list value :=
  [sample_company "111111111" "ALPHA" [identified gerant "822e7662"];
   sample_company "333333333" "GAMMA" []].

Definition mixed_entries : list value :=
  [sample_entry "822e7662" "YILMAZ" "Mehmet"].

(** A company whose only director is an alternate auditor. *)
Definition audited_companies : list value :=
  [sample_company "444444444" "DELTA" [suppleant]].

Definition error_descriptor : value := VDict [("error", VStr "boom")].

(** A raw company object with nothing but a name. *)
Definition bare_company : value := VDict [("nom_complet", VStr "ACME")].

Definition bare_payload : value := VDict [("results", VList [bare_company])].

(** A registry of two pages with one company each. *)
Definition sample_page (p : Z) : value :=
  VDict [("total_pages", VInt 2);
         ("results",
          VList [VDict [("siren", VStr (if p =? 1 then "111111111" else "222222222"));
                        ("siege", VDict [("code_postal", VStr "75002")])]])].

Definition sample_registry (request : params) : result value :=
  Ok (sample_page (page request)).

Definition sample_records (p : Z) : list value :=
  [VDict [("siren", VStr (if p =? 1 then "111111111" else "222222222"));
          ("nom_complet", VNone);
          ("nom_raison_sociale", VNone);
          ("activite_principale", VNone);
          ("dirigeants", VList []);
          ("adresse", VStr "");
          ("code_postal", VStr "75002");
          ("libelle_commune", VStr "");
          ("date_creation", VNone);
          ("nature_juridique", VNone)]].

(** A registry that cannot be reached. *)
Definition failing_registry (request : params) : result value :=
  Raise (Exn RequestException "Read timed out. (read timeout=10)").

(** A language-model client that cannot be reached. *)
Definition failing_client (names : list value) : result parsed_response :=
  Raise (Exn ClientError "Connection error.").

(** ** The command-line run *)

(** What [inquirer.prompt] hands back once the four questions are
    answered. *)
Record answers := {
  answer_naf : string;
  answer_departement : string;
  answer_allow_entrepreneur_individuel : bool;
  answer_check_turkish_names : bool
}.

Section Main.

Variable requests_get : params -> result value.
Variable responses_parse : list value -> result parsed_response.

(** [datetime.now().strftime('%Y%m%d%H%M%S')] *)
Variable now : string.

Definition output_filename (naf departement : string) : string :=
  "companies_" ++ naf ++ "_" ++ departement ++ "_" ++ now ++ ".csv".

(** The body under [if __name__ == "__main__"], from the answers on:
    the file written, or the exception that ended the run before
    [write_csv] was reached. *)
Definition main (a : answers) : M csv_run :=
  (let naf := answer_naf a in
   let departement := answer_departement a in
   data <- get_companies_listing requests_get naf None (Some departement)
             (answer_allow_entrepreneur_individuel a) ;;
   results <- lift (py_getitem data "results") ;;
   companies <- lift (py_iter results) ;;
   cleaned_data <- results_cleanup_and_enrich responses_parse companies
                     (answer_check_turkish_names a) ;;
   ret (write_csv cleaned_data (output_filename naf departement)))%M.

End Main.

(** ** Further shapes *)

(** A record with exactly the ten fields of [format_results]. *)
Definition normal_record (v : value) : Prop :=
  exists fields, v = VDict fields /\ map fst fields = record_fields.

(** A value that [total_pages > 1] accepts. *)
Definition is_number (v : value) : bool :=
  match v with
  | VInt _ | VBool _ => true
  | _ => false
  end.

(** What a page adds to the listing: its normalized records, or nothing
    when the request failed. *)
Definition page_adds (outcome : result value) (records : list value) : Prop :=
  match outcome with
  | Ok payload => format_results payload = Ok records
  | Raise _ => records = []
  end.

(** The one-element list returned in place of a listing. *)
Definition error_list (e : exn) : value :=
  VList [VDict [("error", VStr (str_exn e))]].

(** The mapping returned as a listing. *)
Definition listing_of (results : list value) : value :=
  VDict [("results_count", VInt (Z.of_nat (List.length results)));
         ("results", VList results)].

(** A director with the origin flag the join gives it: the flag of the
    first answer carrying its identifier, [False] when there is none. *)
Definition flagged (turkish_origins : list OrigineTurc) (d : value) : value :=
  match d with
  | VDict kv =>
      VDict (dict_set "origine_turque"
               (VBool match find_match turkish_origins (dict_get kv "id" VNone) with
                      | Some item => origine_turque item
                      | None => false
                      end)
               kv)
  | _ => d
  end.

(** A record with every director flagged. *)
Definition classified (turkish_origins : list OrigineTurc) (company : value) : value :=
  store_dirigeants company (map (flagged turkish_origins) (dirigeants_of company)).

(** Two records that agree on every field but the listed ones. *)
Definition same_fields_but (excluded : list string) (before after : value) : Prop :=
  forall k, ~ In k excluded -> field after k = field before k.

(** A lower-case hexadecimal digit. *)
Definition is_hex_digit (c : ascii) : Prop :=
  In c (list_ascii_of_string "0123456789abcdef").

(** ** More sample data *)



(** A registry that answers the first page and fails afterwards. *)
Definition flaky_registry (request : params) : result value :=
  if page request =? 1 then Ok (sample_page 1)
  else Raise (Exn RequestException "502 Server Error: Bad Gateway").

Definition flaky_records (p : Z) : list value :=
  if p =? 1 then sample_records 1 else [].

(** A page whose company has a null [siege]. *)
Definition broken_company : dict :=
  [("siren", VStr "222222222"); ("siege", VNone)].

Definition broken_page : value :=
  VDict [("results", VList [VDict broken_company])].

Definition broken_registry (request : params) : result value :=
  if page request =? 1 then Ok (sample_page 1) else Ok broken_page.

(** A registry that answers with a JSON array. *)
Definition array_registry (request : params) : result value := Ok (VList []).

(** A registry whose [total_pages] is null. *)
Definition null_total_page : value :=
  VDict [("results", VList []); ("total_pages", VNone)].

Definition null_total_registry (request : params) : result value :=
  Ok null_total_page.

(** A registry with one page holding one company and its two directors. *)
Definition director_page : value :=
  VDict [("total_pages", VInt 1);
         ("results",
          VList [VDict [("siren", VStr "111111111");
                        ("nom_complet", VStr "ALPHA");
                        ("dirigeants", VList [gerant; liquidateur]);
                        ("siege", VDict [("code_postal", VStr "75002")])]])].

Definition director_registry (request : params) : result value := Ok director_page.

(** A client that knows one identifier. *)
Definition known_origins : list OrigineTurc :=
  [{| id := "822e7662"; origine_turque := true |}].

Definition answering_response : parsed_response :=
  {| total_tokens := 42; output_parsed_results := known_origins |}.

Definition answering_client (names : list value) : result parsed_response :=
  Ok answering_response.

(** A company whose director list is null. *)
Definition null_directors : dict :=
  [("siren", VStr "555555555"); ("dirigeants", VNone)].

Definition sample_answers : answers :=
  {| answer_naf := "43.99A";
     answer_departement := "75";
     answer_allow_entrepreneur_individuel := false;
     answer_check_turkish_names := true |}.

Definition sample_now : string := "20260102030405".

(** The file written by a run against [director_registry]. *)
Definition director_run : csv_run :=
  Eval vm_compute in
    match snd (main director_registry failing_client sample_now sample_answers) with
    | Ok run => run
    | Raise _ => write_csv [] ""
    end.

(** * Properties *)

(** ** Dictionaries *)

Lemma dict_lookup_set_eq (k : string) (v : value) (kv : dict) :
  dict_lookup k (dict_set k v kv) = Some v.
Proof.
  induction kv as [|[k' v'] r IH]; simpl.
  - now rewrite String.eqb_refl.
  - destruct (String.eqb k k') eqn:E; simpl.
    + now rewrite String.eqb_refl.
    + now rewrite E.
Qed.

Lemma dict_lookup_set_ne (k k' : string) (v : value) (kv : dict) :
  k <> k' -> dict_lookup k' (dict_set k v kv) = dict_lookup k' kv.
Proof.
  intros Hne. induction kv as [|[k0 v0] r IH]; simpl.
  - destruct (String.eqb k' k) eqn:E; [|reflexivity].
    apply String.eqb_eq in E. congruence.
  - destruct (String.eqb k k0) eqn:E; simpl.
    + apply String.eqb_eq in E. subst k0.
      destruct (String.eqb k' k) eqn:E'; [|reflexivity].
      apply String.eqb_eq in E'. congruence.
    + now rewrite IH.
Qed.

Lemma dict_get_missing (kv : dict) (k : string) (d : value) :
  dict_lookup k kv = None -> dict_get kv k d = d.
Proof. unfold dict_get. now intros ->. Qed.

Lemma dict_get_found (kv : dict) (k : string) (d v : value) :
  dict_lookup k kv = Some v -> dict_get kv k d = v.
Proof. unfold dict_get. now intros ->. Qed.

Lemma dict_get_set_eq (k : string) (v d : value) (kv : dict) :
  dict_get (dict_set k v kv) k d = v.
Proof. unfold dict_get. now rewrite dict_lookup_set_eq. Qed.

Lemma dict_get_set_ne (k k' : string) (v d : value) (kv : dict) :
  k <> k' -> dict_get (dict_set k v kv) k' d = dict_get kv k' d.
Proof. intros H. unfold dict_get. now rewrite dict_lookup_set_ne. Qed.

(** ** The effect monad *)

Lemma snd_bind {A B} (m : M A) (f : A -> M B) :
  snd (bind m f) = rbind (snd m) (fun a => snd (f a)).
Proof.
  destruct m as [l [a|e]]; simpl; [|reflexivity].
  now destruct (f a).
Qed.

Lemma fst_bind {A B} (m : M A) (f : A -> M B) :
  fst (bind m f)
  = fst m ++ match snd m with Ok a => fst (f a) | Raise _ => [] end.
Proof.
  destruct m as [l [a|e]]; simpl; [|now rewrite app_nil_r].
  now destruct (f a).
Qed.

Lemma snd_try_except {A} (body : M A) (handler : exn -> M A) :
  snd (try_except body handler)
  = match snd body with Ok a => Ok a | Raise e => snd (handler e) end.
Proof.
  destruct body as [l [a|e]]; simpl; [reflexivity|].
  now destruct (handler e).
Qed.

Lemma fst_try_except {A} (body : M A) (handler : exn -> M A) :
  fst (try_except body handler)
  = fst body ++ match snd body with Ok _ => [] | Raise e => fst (handler e) end.
Proof.
  destruct body as [l [a|e]]; simpl; [now rewrite app_nil_r|].
  now destruct (handler e).
Qed.

(** ** Ranges *)

Lemma py_range_cons (lo hi : Z) :
  lo < hi -> py_range lo hi = lo :: py_range (lo + 1) hi.
Proof.
  intros H. unfold py_range.
  replace (Z.to_nat (hi - lo)) with (S (Z.to_nat (hi - (lo + 1)))) by lia.
  simpl. f_equal; [lia|].
  rewrite <- seq_shift, map_map. apply map_ext. intros i. lia.
Qed.

Lemma py_range_In (lo hi p : Z) : In p (py_range lo hi) -> lo <= p < hi.
Proof.
  unfold py_range. rewrite in_map_iff. intros [i [<- Hi]].
  apply in_seq in Hi. lia.
Qed.

Lemma length_flat_map_sum {A B} (f : A -> list B) (l : list A) :
  List.length (flat_map f l) = list_sum (map (fun x => List.length (f x)) l).
Proof.
  induction l as [|x r IH]; simpl; [reflexivity|].
  now rewrite length_app, IH.
Qed.

(** ** The aggregator *)

Section RegistryFacts.

Variable requests_get : params -> result value.
Variables (naf : string) (postal_code departement : option string).
Variable allow_entrepreneur_individuel : bool.

Abbreviation nature := (type_entreprises allow_entrepreneur_individuel).

Lemma get_companies_ok (p : Z) (payload : value) :
  requests_get (request naf nature postal_code departement p) = Ok payload ->
  get_companies requests_get naf nature postal_code departement p = ([], Ok payload).
Proof. unfold get_companies. intros ->. reflexivity. Qed.

Lemma get_companies_failed (p : Z) (e : exn) :
  requests_get (request naf nature postal_code departement p) = Raise e ->
  get_companies requests_get naf nature postal_code departement p
  = ([LogErrorFetching e],
     Ok (VDict [("results", VList []); ("error", VStr (str_exn e))])).
Proof. unfold get_companies. intros ->. reflexivity. Qed.

(** The loop over the further pages appends their normalized results in
    the order of the pages. *)
Lemma fetch_pages_ok (payload : Z -> value) (records : Z -> list value)
    (total : Z) (pages : list Z) :
  (forall p, In p pages ->
     requests_get (request naf nature postal_code departement p) = Ok (payload p) /\
     format_results (payload p) = Ok (records p)) ->
  forall acc,
    snd (fetch_pages requests_get naf nature postal_code departement total pages acc)
    = Ok (acc ++ flat_map records pages).
Proof.
  induction pages as [|p rest IH]; intros Hp acc.
  - simpl. now rewrite app_nil_r.
  - destruct (Hp p (or_introl eq_refl)) as [Hget Hfmt].
    cbn [fetch_pages]. rewrite !snd_bind, (get_companies_ok _ _ Hget).
    cbn [log snd rbind]. rewrite snd_bind. cbn [lift snd]. rewrite Hfmt.
    cbn [rbind flat_map].
    rewrite (IH (fun q Hq => Hp q (or_intror Hq))).
    now rewrite <- app_assoc.
Qed.

(** C2. When every page request succeeds, the first page announces
    [n >= 1] pages and every page normalizes, the listing returned is the
    normalized records of pages 1, 2, ..., n one after the other, each page
    in its own order, and [results_count] is the sum of the page counts. *)
Theorem listing_concatenates_pages (payload : Z -> value)
    (records : Z -> list value) (n : Z) :
  1 <= n ->
  (forall p, 1 <= p <= n ->
     requests_get (request naf nature postal_code departement p) = Ok (payload p)) ->
  py_get (payload 1) "total_pages" (VInt 1) = Ok (VInt n) ->
  (forall p, 1 <= p <= n -> format_results (payload p) = Ok (records p)) ->
  let results := flat_map records (py_range 1 (n + 1)) in
  snd (get_companies_listing requests_get naf postal_code departement
         allow_entrepreneur_individuel)
  = Ok (VDict [("results_count",
                VInt (Z.of_nat (list_sum (map (fun p => List.length (records p))
                                              (py_range 1 (n + 1))))));
               ("results", VList results)]).
Proof.
  intros Hn Hget Htotal Hfmt results.
  assert (Hlen : List.length results
                 = list_sum (map (fun p => List.length (records p))
                                 (py_range 1 (n + 1))))
    by apply length_flat_map_sum.
  rewrite <- Hlen. subst results.
  rewrite (py_range_cons 1 (n + 1)) by lia. cbn [flat_map].
  replace (1 + 1) with 2 by reflexivity.
  unfold get_companies_listing.
  rewrite snd_bind. cbn [log snd rbind].
  rewrite snd_try_except, snd_bind.
  rewrite (get_companies_ok 1 (payload 1)) by (apply Hget; lia).
  cbn [snd rbind]. rewrite snd_bind. cbn [lift snd]. rewrite Htotal.
  cbn [rbind]. rewrite snd_bind. cbn [lift snd].
  rewrite (Hfmt 1) by lia. cbn [rbind]. rewrite snd_bind.
  cbn [lift snd py_gt_operand rbind]. rewrite snd_bind.
  assert (Hrest : forall p, In p (py_range 2 (n + 1)) ->
            requests_get (request naf nature postal_code departement p) = Ok (payload p) /\
            format_results (payload p) = Ok (records p)).
  { intros p Hp. apply py_range_In in Hp. split; [apply Hget|apply Hfmt]; lia. }
  destruct (n >? 1) eqn:Hgt.
  - rewrite (fetch_pages_ok payload records n _ Hrest). reflexivity.
  - assert (n = 1) by lia. subst n. cbn [ret snd rbind].
    change (py_range 2 (1 + 1)) with (@nil Z). cbn [flat_map].
    rewrite app_nil_r. reflexivity.
Qed.

(** C9. When the request for page 1 fails, [get_companies] hands back its
    empty-results object and the listing returned is the ordinary mapping
    with a count of 0 and no results: it is not the one-element error
    list, it has no ["error"] key, and it is the very value returned when
    the registry answers with an empty page. *)
Theorem listing_hides_first_page_failure (e : exn) :
  requests_get (request naf nature postal_code departement 1) = Raise e ->
  snd (get_companies_listing requests_get naf postal_code departement
         allow_entrepreneur_individuel)
  = Ok (VDict [("results_count", VInt 0); ("results", VList [])])
  /\ snd (get_companies_listing requests_get naf postal_code departement
            allow_entrepreneur_individuel)
     <> Ok (VList [VDict [("error", VStr (str_exn e))]])
  /\ py_contains (VDict [("results_count", VInt 0); ("results", VList [])]) "error"
     = Ok false
  /\ snd (get_companies_listing requests_get naf postal_code departement
            allow_entrepreneur_individuel)
     = snd (get_companies_listing (fun _ => Ok (VDict [("results", VList [])]))
              naf postal_code departement allow_entrepreneur_individuel).
Proof.
  intros Hfail.
  assert (Hret : snd (get_companies_listing requests_get naf postal_code departement
                        allow_entrepreneur_individuel)
                 = Ok (VDict [("results_count", VInt 0); ("results", VList [])])).
  { unfold get_companies_listing.
    rewrite snd_bind. cbn [log snd rbind].
    rewrite snd_try_except, snd_bind, (get_companies_failed 1 e Hfail).
    reflexivity. }
  rewrite Hret. repeat split.
  discriminate.
Qed.

End RegistryFacts.

(** ** The clean-up loop *)

Lemma keep_dirigeant_dict (d : value) (b : bool) :
  keep_dirigeant d = Ok b -> is_dict d = true.
Proof. destruct d; simpl; try discriminate. reflexivity. Qed.

Lemma filterM_spec {A} (f : A -> result bool) (l kept : list A) :
  filterM f l = Ok kept ->
  kept = filter (fun x => match f x with Ok b => b | Raise _ => false end) l
  /\ Forall (fun x => exists b, f x = Ok b) l.
Proof.
  revert kept. induction l as [|x r IH]; intros kept; simpl.
  - intros [= <-]. split; constructor.
  - destruct (f x) as [b|e] eqn:Hx; simpl; [|discriminate].
    destruct (filterM f r) as [ys|e] eqn:Hr; simpl; [|discriminate].
    intros [= <-]. destruct (IH ys eq_refl) as [-> Hall].
    split; [now destruct b|]. constructor; eauto.
Qed.

Lemma assign_id_dict (kv : dict) :
  assign_id (VDict kv) = Ok (with_id (VDict kv), entry_of (with_id (VDict kv))).
Proof.
  unfold assign_id. simpl. rewrite dict_lookup_set_eq. simpl.
  rewrite dict_get_set_eq, !dict_get_set_ne by discriminate. reflexivity.
Qed.

Lemma mapM_assign_id (l : list value) :
  Forall (fun d => is_dict d = true) l ->
  mapM assign_id l = Ok (map (fun d => (with_id d, entry_of (with_id d))) l).
Proof.
  induction 1 as [|d r Hd _ IH]; simpl; [reflexivity|].
  destruct d; try discriminate. rewrite assign_id_dict, IH. reflexivity.
Qed.

Lemma kept_are_dicts (items kept : list value) :
  filterM keep_dirigeant items = Ok kept ->
  Forall (fun d => is_dict d = true) kept.
Proof.
  intros H. apply filterM_spec in H. destruct H as [-> Hall].
  apply Forall_forall. intros d Hd. apply filter_In in Hd.
  rewrite Forall_forall in Hall. destruct (Hall d (proj1 Hd)) as [b Hb].
  eapply keep_dirigeant_dict; eauto.
Qed.

Lemma cleanup_company_spec (company company' : value) (entries : list value) :
  cleanup_company company = Ok (company', entries) ->
  cleaned_from company company' entries.
Proof.
  unfold cleanup_company.
  destruct (py_contains company "error") as [[|]|e] eqn:Herr; simpl;
    try discriminate.
  - intros [= <- <-]. constructor. unfold is_error_entry. now rewrite Herr.
  - destruct company as [| | | | |kv]; simpl; try discriminate.
    destruct (py_iter (dict_get kv "dirigeants" (VList []))) as [items|e] eqn:Hit;
      simpl; [|discriminate].
    destruct (filterM keep_dirigeant items) as [kept|e] eqn:Hf; simpl;
      [|discriminate].
    rewrite (mapM_assign_id kept (kept_are_dicts _ _ Hf)). simpl.
    rewrite !map_map. simpl. intros [= <- <-].
    destruct (filterM_spec _ _ _ Hf) as [-> Hall].
    rewrite <- (map_map with_id entry_of).
    apply (cleaned_company kv items); auto.
    + unfold is_error_entry. now rewrite Herr.
    + eapply Forall_impl; [|exact Hall]. intros d [b Hb].
      eapply keep_dirigeant_dict; eauto.
Qed.

Lemma cleaned_from_entries (company company' : value) (entries : list value) :
  cleaned_from company company' entries -> entries_of company' = entries.
Proof.
  intros [c Herr|kv items Herr Hit Hall kept]; unfold entries_of.
  - now rewrite Herr.
  - unfold is_error_entry in *. simpl in *.
    rewrite dict_lookup_set_ne by discriminate. rewrite Herr.
    now rewrite dict_lookup_set_eq.
Qed.

Lemma cleaned_from_error (company company' : value) (entries : list value) :
  cleaned_from company company' entries ->
  is_error_entry company' = is_error_entry company.
Proof.
  intros [c Herr|kv items Herr Hit Hall kept]; [reflexivity|].
  unfold is_error_entry. simpl. now rewrite dict_lookup_set_ne by discriminate.
Qed.

(** The items a director loop sees are the director list when all of
    them are records. *)
Lemma iterated_dicts (kv : dict) (items : list value) :
  py_iter (dict_get kv "dirigeants" (VList [])) = Ok items ->
  Forall (fun d => is_dict d = true) items ->
  items = dirigeants_of (VDict kv).
Proof.
  unfold dict_get. simpl.
  destruct (dict_lookup "dirigeants" kv) as [[| | |s|l|kv']|]; simpl;
    try discriminate; intros [= <-]; auto.
  - destruct (Str.chars s); simpl; [reflexivity|]. now inversion 1.
  - destruct kv'; simpl; [reflexivity|]. now inversion 1.
Qed.

Lemma cleanup_loop_spec (companies cleaned all_dirigeants : list value) :
  cleanup_loop companies = Ok (cleaned, all_dirigeants) ->
  Forall2 (fun c c' => exists entries, cleaned_from c c' entries) companies cleaned
  /\ all_dirigeants = flat_map entries_of cleaned.
Proof.
  revert cleaned all_dirigeants.
  induction companies as [|c rest IH]; intros cleaned all_dirigeants; simpl.
  - intros [= <- <-]. split; constructor.
  - destruct (cleanup_company c) as [[c' entries]|e] eqn:Hc; simpl; [|discriminate].
    destruct (cleanup_loop rest) as [[cleaned' all']|e] eqn:Hr; simpl; [|discriminate].
    intros [= <- <-]. apply cleanup_company_spec in Hc.
    destruct (IH _ _ eq_refl) as [Hall ->]. split.
    + constructor; eauto.
    + simpl. now rewrite (cleaned_from_entries _ _ _ Hc).
Qed.

Lemma with_id_origin (d : value) :
  field (with_id d) "origine_turque" = field d "origine_turque".
Proof.
  destruct d; simpl; try reflexivity.
  now rewrite dict_lookup_set_ne by discriminate.
Qed.

Lemma cleaned_from_origin (company company' : value) (entries : list value) :
  cleaned_from company company' entries -> origin_flag_untouched company company'.
Proof.
  intros [c Herr|kv items Herr Hit Hall kept]; unfold origin_flag_untouched.
  - now rewrite Herr.
  - rewrite Herr. intros d' Hd'. unfold dirigeants_of in Hd' at 1.
    rewrite dict_lookup_set_eq in Hd'. subst kept.
    apply in_map_iff in Hd'. destruct Hd' as [d [<- Hd]].
    apply filter_In in Hd. exists d.
    rewrite <- (iterated_dicts kv items Hit Hall).
    repeat split; [tauto|apply with_id_origin].
Qed.

(** The identifier of an entry is the hash of the entry's own names. *)
Lemma entry_of_with_id (d : value) :
  is_dict d = true ->
  exists nom prenoms,
    entry_of (with_id d)
    = VDict [("id", VStr (short_hash (py_str nom ++ py_str prenoms)));
             ("nom", nom); ("prenoms", prenoms)].
Proof.
  destruct d as [| | | | |kv]; try discriminate. intros _. simpl.
  exists (dict_get kv "nom" (VStr "")), (dict_get kv "prenoms" (VStr "")).
  now rewrite dict_get_set_eq, !dict_get_set_ne by discriminate.
Qed.

(** C5, as the code has it.  The flat list handed to the classifier holds
    one entry per director left in the cleaned records, company after
    company and director after director, with no entry dropped: its
    length is the number of directors left, and the identifier of every
    entry is the hash of that entry's own surname and given names. *)
Theorem all_dirigeants_one_per_director
    (companies cleaned all_dirigeants : list value) :
  cleanup_loop companies = Ok (cleaned, all_dirigeants) ->
  all_dirigeants = flat_map entries_of cleaned
  /\ List.length all_dirigeants
     = list_sum (map (fun c => if is_error_entry c then 0%nat
                              else List.length (dirigeants_of c)) cleaned)
  /\ Forall (fun entry =>
               exists nom prenoms,
                 entry = VDict [("id", VStr (short_hash (py_str nom ++ py_str prenoms)));
                                ("nom", nom); ("prenoms", prenoms)])
            all_dirigeants.
Proof.
  intros H. destruct (cleanup_loop_spec _ _ _ H) as [Hall ->].
  split; [reflexivity|]. split.
  - rewrite length_flat_map_sum. f_equal. apply map_ext. intros c.
    unfold entries_of. destruct (is_error_entry c); [reflexivity|].
    apply length_map.
  - clear H. induction Hall as [|c c' rest rest' [entries Hc] _ IH]; simpl.
    + constructor.
    + apply Forall_app. split; [|exact IH].
      rewrite (cleaned_from_entries _ _ _ Hc).
      destruct Hc as [c Herr|kv items Herr Hit Hdicts kept]; [constructor|].
      subst kept. rewrite map_map. apply Forall_forall. intros entry Hentry.
      apply in_map_iff in Hentry. destruct Hentry as [d [<- Hd]].
      apply entry_of_with_id. apply filter_In in Hd.
      rewrite Forall_forall in Hdicts. apply Hdicts. tauto.
Qed.

(** ** The classification loops *)

Lemma same_but_origin_refl (d : value) : same_but_origin d d.
Proof. split; auto. Qed.

Lemma classify_dirigeant_frame (origins : list OrigineTurc) (d d' : value) :
  classify_dirigeant origins d = Ok d' -> same_but_origin d d'.
Proof.
  unfold classify_dirigeant. intros H.
  assert (Hset : exists b, py_setitem d "origine_turque" (VBool b) = Ok d').
  { destruct origins as [|o os]; cbn [rbind] in H; [now exists false|].
    destruct (py_getitem d "id") as [key|e]; cbn [rbind] in H; [|discriminate].
    destruct (find_match (o :: os) key) as [item|];
      [now exists (origine_turque item)|now exists false]. }
  destruct Hset as [b Hset]. destruct d; try discriminate.
  injection Hset as <-. split; [reflexivity|].
  intros k Hk. simpl. apply dict_lookup_set_ne. congruence.
Qed.

Lemma classify_dirigeants_frame (origins : list OrigineTurc)
    (dirigeants dirigeants' : list value) (failure : option exn) :
  classify_dirigeants origins dirigeants = (dirigeants', failure) ->
  Forall2 same_but_origin dirigeants dirigeants'.
Proof.
  revert dirigeants' failure.
  induction dirigeants as [|d rest IH]; intros ds' failure; simpl.
  - intros [= <- <-]. constructor.
  - destruct (classify_dirigeant origins d) as [d'|e] eqn:Hd.
    + destruct (classify_dirigeants origins rest) as [rest' f] eqn:Hrest.
      intros [= <- <-]. constructor; eauto using classify_dirigeant_frame.
    + intros [= <- <-]. constructor; [apply same_but_origin_refl|].
      clear. induction rest; constructor; auto using same_but_origin_refl.
Qed.

Lemma classify_company_frame (origins : list OrigineTurc)
    (company company' : value) (failure : option exn) :
  classify_company origins company = (company', failure) ->
  classified_from company company'.
Proof.
  unfold classify_company.
  destruct (py_get company "dirigeants" (VList [])) as [raw|e] eqn:Hraw;
    cbn [rbind]; [|intros [= <- <-]; constructor].
  destruct (py_iter raw) as [items|e] eqn:Hit; [|intros [= <- <-]; constructor].
  destruct (classify_dirigeants origins items) as [items' f] eqn:Hcl.
  intros [= <- <-]. apply classify_dirigeants_frame in Hcl.
  destruct company as [| | | | |kv]; try constructor.
  injection Hraw as <-. unfold store_dirigeants, dict_get in *.
  destruct (dict_lookup "dirigeants" kv) as [[| | | |l|]|] eqn:Hl;
    try constructor.
  injection Hit as <-. now apply classified_dirigeants with (l := l).
Qed.

Lemma classify_companies_frame (origins : list OrigineTurc)
    (cleaned cleaned' : list value) (failure : option exn) :
  classify_companies origins cleaned = (cleaned', failure) ->
  Forall2 classified_from cleaned cleaned'.
Proof.
  revert cleaned' failure.
  induction cleaned as [|c rest IH]; intros cleaned' failure; simpl.
  - intros [= <- <-]. constructor.
  - destruct (classify_company origins c) as [c' [e|]] eqn:Hc.
    + intros [= <- <-]. constructor; [eapply classify_company_frame; eauto|].
      clear. induction rest; constructor; auto using classified_same.
    + destruct (classify_companies origins rest) as [rest' f] eqn:Hrest.
      intros [= <- <-]. constructor; eauto using classify_company_frame.
Qed.

Lemma classified_from_error (company company' : value) :
  classified_from company company' ->
  is_error_entry company' = is_error_entry company.
Proof.
  intros [c|kv l l' Hl Hall]; [reflexivity|].
  unfold is_error_entry. simpl. now rewrite dict_lookup_set_ne by discriminate.
Qed.

Lemma classified_from_dirigeants (company company' : value) :
  classified_from company company' ->
  Forall2 same_but_origin (dirigeants_of company) (dirigeants_of company').
Proof.
  intros [c|kv l l' Hl Hall].
  - induction (dirigeants_of c); constructor; auto using same_but_origin_refl.
  - unfold dirigeants_of. now rewrite Hl, dict_lookup_set_eq.
Qed.

Lemma passes_filter_frame (d d' : value) :
  same_but_origin d d' -> passes_filter d -> passes_filter d'.
Proof.
  intros [_ Hsame] [Htype Hqual]. unfold passes_filter.
  now rewrite !Hsame by discriminate.
Qed.

Lemma keeps_passes_filter (d : value) :
  keeps d = true -> passes_filter (with_id d).
Proof.
  unfold keeps, keep_dirigeant, passes_filter.
  destruct d as [| | | | |kv]; try discriminate. simpl.
  rewrite !dict_lookup_set_ne by discriminate. unfold dict_get.
  destruct (dict_lookup "type_dirigeant" kv) as [[| | |t| |]|]; simpl;
    try discriminate.
  destruct (String.eqb t "personne physique") eqn:Ht; simpl; [|discriminate].
  apply String.eqb_eq in Ht. subst t. intros H.
  split; [reflexivity|]. now apply negb_true_iff in H.
Qed.

Lemma cleaned_from_passes_filter (company company' : value) (entries : list value) :
  cleaned_from company company' entries ->
  is_error_entry company' = false ->
  company_wf company' = true /\ Forall passes_filter (dirigeants_of company').
Proof.
  intros Hc Herr. pose proof (cleaned_from_error _ _ _ Hc) as Hsame.
  destruct Hc as [c Hc|kv items Hc Hit Hall kept]; [congruence|].
  unfold dirigeants_of, company_wf. rewrite dict_lookup_set_eq. subst kept. split.
  - apply forallb_forall. intros d Hd. apply in_map_iff in Hd.
    destruct Hd as [d0 [<- Hd0]]. apply filter_In in Hd0.
    rewrite Forall_forall in Hall. pose proof (Hall d0 (proj1 Hd0)) as Hdict.
    now destruct d0.
  - apply Forall_forall. intros d Hd. apply in_map_iff in Hd.
    destruct Hd as [d0 [<- Hd0]]. apply filter_In in Hd0.
    now apply keeps_passes_filter.
Qed.

Lemma classified_from_passes_filter (company company' : value) :
  classified_from company company' ->
  company_wf company = true /\ Forall passes_filter (dirigeants_of company) ->
  company_wf company' = true /\ Forall passes_filter (dirigeants_of company').
Proof.
  intros Hc [Hwf Hpass].
  pose proof (classified_from_dirigeants _ _ Hc) as Hds.
  split.
  - destruct Hc as [c|kv l l' Hl Hall]; [exact Hwf|].
    unfold company_wf in *. rewrite dict_lookup_set_eq. rewrite Hl in Hwf.
    clear Hds Hpass Hl. induction Hall as [|d d' r r' [Hd _] _ IH]; simpl in *;
      [reflexivity|].
    apply andb_prop in Hwf. destruct Hwf as [H1 H2].
    now rewrite (Hd H1), (IH H2).
  - clear Hwf Hc. induction Hds as [|d d' r r' Hd _ IH]; [constructor|].
    inversion Hpass; subst. constructor; eauto using passes_filter_frame.
Qed.

(** ** Enrichment *)

Section EnrichmentFacts.

Variable responses_parse : list value -> result parsed_response.

(** C8. With the flag off, or with no director to check, the classifier is
    not called (the log has no [LogIdentifying] event and the result does
    not depend on the client), the cleaned records are returned as they
    are, and every director returned has the origin flag, present or
    absent, that it had on entry. *)
Theorem no_classification_without_check
    (companies cleaned all_dirigeants : list value) (check_turkish_names : bool) :
  cleanup_loop companies = Ok (cleaned, all_dirigeants) ->
  check_turkish_names = false \/ all_dirigeants = [] ->
  results_cleanup_and_enrich responses_parse companies check_turkish_names
  = ((if check_turkish_names then [LogNoDirigeants] else []), Ok cleaned)
  /\ Forall2 origin_flag_untouched companies cleaned.
Proof.
  intros Hloop Hskip. split.
  - unfold results_cleanup_and_enrich. rewrite Hloop. simpl.
    destruct Hskip as [->| ->]; [reflexivity|].
    now destruct check_turkish_names.
  - destruct (cleanup_loop_spec _ _ _ Hloop) as [Hall _].
    eapply Forall2_impl; [|exact Hall].
    intros c c' [entries Hc]. eapply cleaned_from_origin; eauto.
Qed.

(** C7. When the classifier call raises, the exception is caught and
    logged, and the records returned are the cleaned ones: filtered, with
    identifiers, one per input entry, the same list the call returns with
    the flag off. *)
Theorem classifier_failure_keeps_cleaned
    (companies cleaned all_dirigeants : list value) (e : exn) :
  cleanup_loop companies = Ok (cleaned, all_dirigeants) ->
  all_dirigeants <> [] ->
  responses_parse all_dirigeants = Raise e ->
  results_cleanup_and_enrich responses_parse companies true
  = ([LogIdentifying (List.length all_dirigeants); LogErrorIdentifying e],
     Ok cleaned)
  /\ results_cleanup_and_enrich responses_parse companies false = ([], Ok cleaned)
  /\ Forall2 (fun c c' => exists entries, cleaned_from c c' entries)
             companies cleaned.
Proof.
  intros Hloop Hne Hfail. repeat split.
  - unfold results_cleanup_and_enrich. rewrite Hloop. simpl.
    destruct all_dirigeants as [|x r]; [congruence|].
    unfold identify_turkish_names, attempt. rewrite Hfail. reflexivity.
  - unfold results_cleanup_and_enrich. rewrite Hloop. reflexivity.
  - apply (cleanup_loop_spec _ _ _ Hloop).
Qed.

(** Whatever the flag and the client do, every record returned that is
    not an error entry is a record with a list of director records, each
    of which passes the filter as the source writes it. *)
Lemma enriched_dirigeants_pass_filter
    (companies returned : list value) (check_turkish_names : bool) :
  snd (results_cleanup_and_enrich responses_parse companies check_turkish_names)
  = Ok returned ->
  Forall (fun c => is_error_entry c = false ->
                   company_wf c = true /\ Forall passes_filter (dirigeants_of c))
         returned.
Proof.
  unfold results_cleanup_and_enrich. rewrite snd_bind. cbn [lift snd].
  destruct (cleanup_loop companies) as [[cleaned all_dirigeants]|e] eqn:Hloop;
    cbn [rbind fst snd]; [|discriminate].
  destruct (cleanup_loop_spec _ _ _ Hloop) as [Hall _].
  assert (Hcleaned :
    Forall (fun c => is_error_entry c = false ->
                     company_wf c = true /\ Forall passes_filter (dirigeants_of c))
           cleaned).
  { clear Hloop. induction Hall as [|c c' r r' [entries Hc] _ IH]; constructor;
      eauto using cleaned_from_passes_filter. }
  destruct check_turkish_names; [|now intros [= <-]].
  destruct all_dirigeants as [|x r]; [now intros [= <-]|].
  rewrite snd_bind. cbn [attempt snd rbind].
  destruct (snd (identify_turkish_names responses_parse (x :: r))) as [origins|e];
    [|now intros [= <-]].
  destruct (classify_companies origins cleaned) as [cleaned' failure] eqn:Hcl.
  assert (Hret : returned = cleaned' -> Forall
    (fun c => is_error_entry c = false ->
              company_wf c = true /\ Forall passes_filter (dirigeants_of c))
    returned).
  { intros ->. apply classify_companies_frame in Hcl. clear Hloop Hall.
    induction Hcl as [|c c' rest rest' Hc _ IH]; [constructor|].
    inversion Hcleaned; subst. constructor; [|now apply IH].
    intros Herr. rewrite (classified_from_error _ _ Hc) in Herr.
    eauto using classified_from_passes_filter. }
  destruct failure; intros [= <-]; now apply Hret.
Qed.

End EnrichmentFacts.

(** ** Normalization *)

Lemma dict_get_or_default (kv : dict) (k : string) (default : value) :
  dict_get kv k default = or_default (dict_lookup k kv) default.
Proof. reflexivity. Qed.

Lemma format_company_normalized (raw : value) :
  raw_company_wf raw = true ->
  exists record, format_company raw = Ok record /\ normalized raw record.
Proof.
  destruct raw as [| | | | |kv]; try discriminate. simpl.
  destruct (dict_get kv "siege" (VDict [])) as [| | | | |siege] eqn:Hsiege;
    try discriminate.
  intros _. eexists. split.
  - unfold format_company. simpl. rewrite Hsiege. simpl. reflexivity.
  - exists kv, siege. eexists. repeat split; try exact Hsiege.
    + intros k Hk. simpl in Hk.
      repeat (destruct Hk as [<-|Hk]; [reflexivity|]). contradiction.
    + intros k Hk. simpl in Hk.
      repeat (destruct Hk as [<-|Hk]; [reflexivity|]). contradiction.
Qed.

(** C6, as the code has it.  On a payload whose raw company objects are
    records with a record (or no) [siege], [format_results] returns one
    record per raw object, in order, with the ten fixed fields; a field
    present in the payload is copied as it is, a missing director list
    becomes the empty list, a missing address field the empty string, and
    a missing plain field [None]. *)
Theorem format_results_defaults (payload : value) (raws : list value) :
  raw_companies payload = Ok raws ->
  Forall (fun raw => raw_company_wf raw = true) raws ->
  exists records,
    format_results payload = Ok records /\ Forall2 normalized raws records.
Proof.
  unfold raw_companies, format_results.
  destruct (py_get payload "results" (VList [])) as [results|e]; simpl;
    [|discriminate].
  intros -> Hwf. simpl.
  induction Hwf as [|raw rest Hraw _ [records [Hrest Hall]]]; simpl.
  - exists []. split; constructor.
  - destruct (format_company_normalized raw Hraw) as [record [-> Hnorm]].
    rewrite Hrest. simpl. exists (record :: records). split; [reflexivity|].
    now constructor.
Qed.

(** ** The CSV exporter *)

Lemma write_row (c d : dict) (fields : dict) :
  company_data (VDict c) = Ok fields ->
  (own <- dirigeant_data (VDict d) ;; dict_to_row (dict_merge own fields))%result
  = Ok (row_of (VDict c) (VDict d)).
Proof. intros [= <-]. reflexivity. Qed.

Lemma write_dirigeants_records (c : dict) (fields : dict) (dirigeants : list value) :
  company_data (VDict c) = Ok fields ->
  forallb is_dict dirigeants = true ->
  write_dirigeants fields dirigeants = (map (row_of (VDict c)) dirigeants, Ok tt).
Proof.
  intros Hc. induction dirigeants as [|d rest IH]; simpl; [reflexivity|].
  intros H. apply andb_prop in H. destruct H as [Hd Hrest].
  destruct d as [| | | | |d]; try discriminate.
  rewrite (write_row c d fields Hc), (IH Hrest). reflexivity.
Qed.

Lemma write_companies_records (companies : list value) :
  forallb company_wf companies = true ->
  write_companies companies
  = (flat_map (fun c => map (row_of c) (dirigeants_of c)) companies, Ok tt).
Proof.
  induction companies as [|c rest IH]; simpl; [reflexivity|].
  intros H. apply andb_prop in H. destruct H as [Hc Hrest].
  rewrite (IH Hrest). clear IH.
  destruct c as [| | | | |kv]; try discriminate.
  remember (company_data (VDict kv)) as cd eqn:Hcd.
  assert (Hok : exists fields, cd = Ok fields) by (subst cd; eexists; reflexivity).
  destruct Hok as [fields ->]. symmetry in Hcd.
  cbn [write_companies rbind py_get flat_map dirigeants_of].
  unfold dict_get. simpl in Hc.
  destruct (dict_lookup "dirigeants" kv) as [[| | | |l|]|]; try discriminate;
    cbn [py_iter rbind].
  - rewrite (write_dirigeants_records kv fields l Hcd Hc). reflexivity.
  - reflexivity.
Qed.

Lemma write_csv_one_row_per_director_aux (companies : list value) (filename : string) :
  forallb company_wf companies = true ->
  data_rows (write_csv companies filename)
  = flat_map (fun c => map (row_of c) (dirigeants_of c)) companies
  /\ csv_outcome (write_csv companies filename) = ([LogCsvWritten filename], Ok tt).
Proof.
  intros Hwf. unfold write_csv, data_rows.
  rewrite (write_companies_records companies Hwf). split; reflexivity.
Qed.

(** C3. For a list of company records with lists of director records,
    the file holds the header row of the 14 column names in their fixed
    order, then one row per (company, director) pair, companies in input
    order and directors in list order; the number of data rows is the sum
    of the lengths of the director lists, so a company without directors
    adds none; and the call completes. *)
Theorem write_csv_one_row_per_director (companies : list value) (filename : string) :
  forallb company_wf companies = true ->
  csv_rows (write_csv companies filename)
  = map VStr headers
    :: flat_map (fun c => map (row_of c) (dirigeants_of c)) companies
  /\ List.length headers = 14%nat
  /\ List.length (data_rows (write_csv companies filename))
     = list_sum (map (fun c => List.length (dirigeants_of c)) companies)
  /\ csv_outcome (write_csv companies filename)
     = ([LogCsvWritten filename], Ok tt).
Proof.
  intros Hwf. unfold write_csv, data_rows.
  rewrite (write_companies_records companies Hwf). simpl.
  repeat split. rewrite length_flat_map_sum. f_equal.
  apply map_ext. intros c. apply length_map.
Qed.

Lemma write_companies_skip (pre errs post : list value) :
  forallb is_error_descriptor errs = true ->
  write_companies (pre ++ errs ++ post) = write_companies (pre ++ post).
Proof.
  intros Herrs. induction pre as [|c pre IH]; simpl.
  - induction errs as [|entry errs IH]; simpl; [reflexivity|].
    simpl in Herrs. apply andb_prop in Herrs. destruct Herrs as [Hentry Herrs].
    rewrite (IH Herrs). clear IH.
    destruct entry as [| | | | |kv]; try discriminate. simpl in Hentry.
    destruct (dict_lookup "error" kv); [|discriminate].
    destruct (dict_lookup "dirigeants" kv) eqn:Hnone; [discriminate|].
    cbn [rbind py_get company_data].
    rewrite (dict_get_missing kv "dirigeants" _ Hnone). simpl.
    now destruct (write_companies post).
  - now rewrite IH.
Qed.

(** C10. Error descriptors add no row: taking a run of them out of any
    input list leaves the written file and the outcome unchanged, and a
    list made only of error descriptors yields the header row alone, with
    the call completing as usual. *)
Theorem write_csv_skips_error_descriptors
    (pre errs post : list value) (filename : string) :
  forallb is_error_descriptor errs = true ->
  write_csv (pre ++ errs ++ post) filename = write_csv (pre ++ post) filename
  /\ csv_rows (write_csv errs filename) = [map VStr headers]
  /\ csv_outcome (write_csv errs filename) = ([LogCsvWritten filename], Ok tt).
Proof.
  intros Herrs. split.
  - unfold write_csv. now rewrite (write_companies_skip pre errs post Herrs).
  - pose proof (write_companies_skip [] errs [] Herrs) as H.
    rewrite app_nil_r in H. simpl in H.
    unfold write_csv. rewrite H. split; reflexivity.
Qed.

(** X14. For records with lists of director records, the nationality
    cell of every data row is the empty string, whatever the director
    records hold. *)
Lemma nationalite_never_written (companies : list value) (filename : string) :
  forallb company_wf companies = true ->
  Forall (fun r => cell r "dirigeant_nationalite" = Some (VStr ""))
         (data_rows (write_csv companies filename)).
Proof.
  intros Hwf.
  destruct (write_csv_one_row_per_director_aux companies filename Hwf) as [-> _].
  apply Forall_forall. intros r Hr. apply in_flat_map in Hr.
  destruct Hr as [c [Hc Hr]]. apply in_map_iff in Hr. destruct Hr as [d [<- Hd]].
  rewrite forallb_forall in Hwf. specialize (Hwf c Hc).
  destruct c as [| | | | |kv]; try discriminate.
  unfold dirigeants_of in Hd. simpl in Hwf.
  destruct (dict_lookup "dirigeants" kv) as [[| | | |l|]|]; try contradiction;
    try discriminate.
  rewrite forallb_forall in Hwf. specialize (Hwf d Hd).
  destruct d; try discriminate. reflexivity.
Qed.

(** * Runs on sample data *)

(** ** The hash *)

Example md5_empty : MD5.hexdigest "" = "d41d8cd98f00b204e9800998ecf8427e".
Proof. vm_compute. reflexivity. Qed.
Example md5_abc : MD5.hexdigest "abc" = "900150983cd24fb0d6963f7d28e17f72".
Proof. vm_compute. reflexivity. Qed.
Example md5_md : MD5.hexdigest "message digest" = "f96b697d7cb7938d525a2f31aaf161d0".
Proof. vm_compute. reflexivity. Qed.
Example md5_a56 : MD5.hexdigest "aaaaaaaaaaaaaaaaaaaaaaaaaaaaaaaaaaaaaaaaaaaaaaaaaaaaaaaa" = "3b0c8ac703f828b04c6c197006d17218".
Proof. vm_compute. reflexivity. Qed.
Example md5_a64 : MD5.hexdigest "aaaaaaaaaaaaaaaaaaaaaaaaaaaaaaaaaaaaaaaaaaaaaaaaaaaaaaaaaaaaaaaa" = "014842d480b571495a4a0363793f7367".
Proof. vm_compute. reflexivity. Qed.

Example short_hash_names : short_hash "YILMAZMehmet" = "822e7662".
Proof. vm_compute. reflexivity. Qed.

(** ** The aggregator *)

Lemma listing_concatenates_pages_witness :
  snd (get_companies_listing sample_registry "43.99A" None (Some "75") false)
  = Ok (VDict [("results_count", VInt 2);
               ("results", VList (sample_records 1 ++ sample_records 2))]).
Proof.
  apply (listing_concatenates_pages sample_registry "43.99A" None (Some "75") false
           sample_page sample_records 2).
  - lia.
  - intros p _. reflexivity.
  - reflexivity.
  - intros p Hp. assert (Hcases : p = 1 \/ p = 2) by lia.
    destruct Hcases as [-> | ->]; reflexivity.
Defined.

Lemma listing_hides_first_page_failure_witness :
  snd (get_companies_listing failing_registry "43.99A" None (Some "75") false)
  = Ok (VDict [("results_count", VInt 0); ("results", VList [])]).
Proof.
  apply (listing_hides_first_page_failure failing_registry "43.99A" None (Some "75")
           false (Exn RequestException "Read timed out. (read timeout=10)")).
  reflexivity.
Defined.

(** ** Normalization *)

(** C6 does not hold as stated: a raw company object without [siren]
    normalizes to a record whose [siren] is [None]. *)
Lemma format_results_missing_field_is_none :
  exists record,
    format_results bare_payload = Ok [record] /\ field record "siren" = Some VNone.
Proof. eexists. split; reflexivity. Qed.

Lemma format_results_defaults_witness :
  exists records,
    format_results bare_payload = Ok records /\ Forall2 normalized [bare_company] records.
Proof.
  apply (format_results_defaults bare_payload [bare_company]).
  - reflexivity.
  - repeat constructor.
Defined.

(** ** Enrichment *)

Lemma cleanup_loop_shared_director :
  cleanup_loop shared_director_companies
  = Ok (shared_director_cleaned, shared_director_entries).
Proof. vm_compute. reflexivity. Qed.

Lemma cleanup_loop_mixed :
  cleanup_loop mixed_companies = Ok (mixed_cleaned, mixed_entries).
Proof. vm_compute. reflexivity. Qed.

(** C5 does not hold as stated: a person who runs two companies is
    entered twice, with the same identifier. *)
Lemma all_dirigeants_repeats_identifier :
  exists cleaned all_dirigeants,
    cleanup_loop shared_director_companies = Ok (cleaned, all_dirigeants)
    /\ ~ NoDup (map entry_id all_dirigeants).
Proof.
  exists shared_director_cleaned, shared_director_entries.
  split; [exact cleanup_loop_shared_director|].
  intros H. inversion H as [|x l Hin _]; subst. apply Hin. now left.
Qed.

Lemma all_dirigeants_one_per_director_witness :
  shared_director_entries = flat_map entries_of shared_director_cleaned
  /\ List.length shared_director_entries
     = list_sum (map (fun c => if is_error_entry c then 0%nat
                              else List.length (dirigeants_of c))
                     shared_director_cleaned)
  /\ Forall (fun entry =>
               exists nom prenoms,
                 entry = VDict [("id", VStr (short_hash (py_str nom ++ py_str prenoms)));
                                ("nom", nom); ("prenoms", prenoms)])
            shared_director_entries.
Proof.
  apply (all_dirigeants_one_per_director shared_director_companies).
  vm_compute. reflexivity.
Defined.

Lemma no_classification_without_check_witness :
  results_cleanup_and_enrich failing_client mixed_companies false
  = ([], Ok mixed_cleaned)
  /\ Forall2 origin_flag_untouched mixed_companies mixed_cleaned.
Proof.
  apply (no_classification_without_check failing_client mixed_companies
           mixed_cleaned mixed_entries false).
  - vm_compute. reflexivity.
  - left. reflexivity.
Defined.

Lemma classifier_failure_keeps_cleaned_witness :
  results_cleanup_and_enrich failing_client mixed_companies true
  = ([LogIdentifying 1; LogErrorIdentifying (Exn ClientError "Connection error.")],
     Ok mixed_cleaned)
  /\ results_cleanup_and_enrich failing_client mixed_companies false
     = ([], Ok mixed_cleaned)
  /\ Forall2 (fun c c' => exists entries, cleaned_from c c' entries)
             mixed_companies mixed_cleaned.
Proof.
  apply (classifier_failure_keeps_cleaned failing_client mixed_companies
           mixed_cleaned mixed_entries (Exn ClientError "Connection error.")).
  - vm_compute. reflexivity.
  - discriminate.
  - reflexivity.
Defined.

(** C1 fails on the code.  The third excluded role of the source is not
    the registry's label, so an alternate auditor who is a person stays
    in the director list, whatever the flag and the client. *)
Theorem alternate_auditor_survives
    (responses_parse : list value -> result parsed_response)
    (check_turkish_names : bool) :
  exists company d,
    snd (results_cleanup_and_enrich responses_parse audited_companies
           check_turkish_names)
    = Ok [company]
    /\ is_error_entry company = false
    /\ In d (dirigeants_of company)
    /\ field d "type_dirigeant" = Some (VStr "personne physique")
    /\ field d "qualite" = Some (VStr "Commissaire aux comptes suppléant").
Proof.
  assert (Hloop : cleanup_loop audited_companies
                  = Ok ([sample_company "444444444" "DELTA"
                           [identified suppleant "60732942"]],
                        [sample_entry "60732942" "MARTIN" "Paul"]))
    by (vm_compute; reflexivity).
  unfold results_cleanup_and_enrich. rewrite snd_bind. cbn [lift snd].
  rewrite Hloop. cbn [rbind fst snd].
  destruct check_turkish_names.
  - rewrite snd_bind. cbn [attempt snd rbind].
    unfold identify_turkish_names. rewrite !snd_bind. cbn [log lift snd rbind].
    destruct (responses_parse _) as [[tokens origins]|e]; cbn [rbind].
    + rewrite snd_bind.
      cbn [log snd rbind ret output_parsed_results classify_companies].
      unfold classify_company. cbn [py_get sample_company rbind].
      change (dict_get _ "dirigeants" (VList []))
        with (VList [identified suppleant "60732942"]).
      cbn [py_iter rbind classify_dirigeants].
      assert (Hd : exists b,
        classify_dirigeant origins (identified suppleant "60732942")
        = Ok (VDict [("nom", VStr "MARTIN");
                     ("prenoms", VStr "Paul");
                     ("qualite", VStr "Commissaire aux comptes suppléant");
                     ("type_dirigeant", VStr "personne physique");
                     ("id", VStr "60732942");
                     ("origine_turque", VBool b)])).
      { unfold classify_dirigeant. destruct origins as [|o os].
        - exists false. reflexivity.
        - change (py_getitem (identified suppleant "60732942") "id")
            with (@Ok value (VStr "60732942")). cbn [rbind].
          destruct (find_match (o :: os) (VStr "60732942")) as [item|];
            [exists (origine_turque item)|exists false]; reflexivity. }
      destruct Hd as [b ->]. cbn [store_dirigeants sample_company].
      do 2 eexists. split; [reflexivity|].
      split; [reflexivity|]. split; [left; reflexivity|]. split; reflexivity.
    + do 2 eexists. split; [reflexivity|].
      split; [reflexivity|]. split; [left; reflexivity|]. split; reflexivity.
  - do 2 eexists. split; [reflexivity|].
    split; [reflexivity|]. split; [left; reflexivity|]. split; reflexivity.
Qed.

(** ** The CSV exporter *)

Lemma write_csv_one_row_per_director_witness :
  csv_rows (write_csv mixed_cleaned "companies.csv")
  = map VStr headers
    :: flat_map (fun c => map (row_of c) (dirigeants_of c)) mixed_cleaned
  /\ List.length headers = 14%nat
  /\ List.length (data_rows (write_csv mixed_cleaned "companies.csv"))
     = list_sum (map (fun c => List.length (dirigeants_of c)) mixed_cleaned)
  /\ csv_outcome (write_csv mixed_cleaned "companies.csv")
     = ([LogCsvWritten "companies.csv"], Ok tt).
Proof.
  apply (write_csv_one_row_per_director mixed_cleaned "companies.csv").
  reflexivity.
Defined.

Lemma write_csv_skips_error_descriptors_witness :
  write_csv (mixed_cleaned ++ [error_descriptor] ++ []) "companies.csv"
  = write_csv (mixed_cleaned ++ []) "companies.csv"
  /\ csv_rows (write_csv [error_descriptor] "companies.csv") = [map VStr headers]
  /\ csv_outcome (write_csv [error_descriptor] "companies.csv")
     = ([LogCsvWritten "companies.csv"], Ok tt).
Proof.
  apply (write_csv_skips_error_descriptors mixed_cleaned [error_descriptor] []
           "companies.csv").
  reflexivity.
Defined.

(** C4 fails on the code.  The header names a nationality column, but the
    row built for a director has no such key: the cell is the writer's
    empty default, whatever nationality the director record holds. *)
Theorem nationalite_column_left_empty :
  exists r,
    data_rows (write_csv mixed_cleaned "companies.csv") = [r]
    /\ cell r "dirigeant_nom" = Some (VStr "YILMAZ")
    /\ cell r "siren" = Some (VStr "111111111")
    /\ field (identified gerant "822e7662") "nationalite" = Some (VStr "Turque")
    /\ cell r "dirigeant_nationalite" = Some (VStr "").
Proof. eexists. repeat split. Qed.


(** * Further properties *)

(** ** The aggregator beyond the happy path *)

Lemma py_range_empty (lo hi : Z) : hi <= lo -> py_range lo hi = [].
Proof.
  intros H. unfold py_range. now replace (Z.to_nat (hi - lo)) with 0%nat by lia.
Qed.

Lemma py_range_split (lo mid hi : Z) :
  lo <= mid <= hi -> py_range lo hi = py_range lo mid ++ py_range mid hi.
Proof.
  intros H. unfold py_range.
  replace (Z.to_nat (hi - lo))
    with (Z.to_nat (mid - lo) + Z.to_nat (hi - mid))%nat by lia.
  rewrite seq_app, map_app. f_equal. simpl.
  generalize (Z.to_nat (hi - mid)) as len.
  assert (Hshift : forall len a,
            seq a len = map (fun i => (a + i)%nat) (seq 0 len)).
  { induction len as [|len IH]; intros a; simpl; [reflexivity|].
    f_equal; [lia|]. rewrite <- (seq_shift len 0), map_map, (IH (S a)).
    apply map_ext. intros i. lia. }
  intros len. rewrite (Hshift len (Z.to_nat (mid - lo))), map_map.
  apply map_ext. intros i. lia.
Qed.

Lemma format_company_record (raw record : value) :
  format_company raw = Ok record -> normal_record record.
Proof.
  destruct raw as [| | | | |kv]; try discriminate. unfold format_company. simpl.
  destruct (dict_get kv "siege" (VDict [])); try discriminate. simpl.
  intros [= <-]. eexists. split; reflexivity.
Qed.

Lemma format_results_records (payload : value) (records : list value) :
  format_results payload = Ok records -> Forall normal_record records.
Proof.
  unfold format_results.
  destruct (py_get payload "results" (VList [])) as [results|e]; simpl;
    [|discriminate].
  destruct (py_iter results) as [items|e]; simpl; [|discriminate].
  revert records. induction items as [|raw rest IH]; intros records; simpl.
  - intros [= <-]. constructor.
  - destruct (format_company raw) as [record|e] eqn:Hraw; simpl; [|discriminate].
    destruct (mapM format_company rest) as [others|e]; simpl; [|discriminate].
    intros [= <-]. constructor; eauto using format_company_record.
Qed.

Lemma mapM_app_raises {A B} (f : A -> result B) (before after : list A) (x : A)
    (ys : list B) (e : exn) :
  mapM f before = Ok ys -> f x = Raise e -> mapM f (before ++ x :: after) = Raise e.
Proof.
  revert ys. induction before as [|a rest IH]; intros ys; simpl.
  - intros _ ->. reflexivity.
  - destruct (f a) as [y|e0]; simpl; [|discriminate].
    destruct (mapM f rest) as [ys'|e0]; simpl; [|discriminate].
    intros _ Hx. now rewrite (IH _ eq_refl Hx).
Qed.

(** X7. One raw company object whose [siege] is present but is not an
    object (a JSON null, say) makes [format_results] raise an
    [AttributeError] for the whole payload, whatever the other objects
    are. *)
Theorem format_results_raises_on_bad_siege
    (payload : value) (before after records : list value) (kv : dict) (siege : value) :
  raw_companies payload = Ok (before ++ VDict kv :: after) ->
  mapM format_company before = Ok records ->
  dict_lookup "siege" kv = Some siege ->
  is_dict siege = false ->
  format_results payload
  = Raise (Exn AttributeError
             ("'" ++ type_name siege ++ "' object has no attribute 'get'")).
Proof.
  unfold raw_companies, format_results.
  destruct (py_get payload "results" (VList [])) as [results|e]; simpl;
    [|discriminate].
  intros -> Hbefore Hsiege Hnot. simpl.
  apply (mapM_app_raises format_company before after (VDict kv) records);
    [exact Hbefore|].
  unfold format_company. cbn [py_get rbind].
  rewrite (dict_get_found kv "siege" _ siege Hsiege).
  destruct siege; try discriminate; reflexivity.
Qed.

Section AggregatorFacts.

Variable requests_get : params -> result value.
Variables (naf : string) (postal_code departement : option string).
Variable allow_entrepreneur_individuel : bool.

Abbreviation nature := (type_entreprises allow_entrepreneur_individuel).
Abbreviation listing :=
  (get_companies_listing requests_get naf postal_code departement
     allow_entrepreneur_individuel).
Abbreviation fetch p := (requests_get (request naf nature postal_code departement p)).

(** A request that fails adds no record and no exception. *)
Lemma get_companies_adds (p : Z) (records : list value) :
  page_adds (fetch p) records ->
  exists payload,
    snd (get_companies requests_get naf nature postal_code departement p) = Ok payload
    /\ format_results payload = Ok records.
Proof.
  unfold page_adds. destruct (fetch p) as [payload|e] eqn:Hp.
  - intros H. exists payload. now rewrite (get_companies_ok _ _ _ _ _ _ _ Hp).
  - intros ->. eexists. rewrite (get_companies_failed _ _ _ _ _ _ _ Hp).
    split; reflexivity.
Qed.

Lemma fetch_pages_adds (records : Z -> list value) (total : Z) (pages : list Z) :
  (forall p, In p pages -> page_adds (fetch p) (records p)) ->
  forall acc,
    snd (fetch_pages requests_get naf nature postal_code departement total pages acc)
    = Ok (acc ++ flat_map records pages).
Proof.
  induction pages as [|p rest IH]; intros Hp acc.
  - simpl. now rewrite app_nil_r.
  - destruct (get_companies_adds p (records p) (Hp p (or_introl eq_refl)))
      as [payload [Hget Hfmt]].
    cbn [fetch_pages]. rewrite !snd_bind. cbn [log snd rbind].
    rewrite Hget. cbn [rbind]. rewrite snd_bind. cbn [lift snd]. rewrite Hfmt.
    cbn [rbind flat_map].
    rewrite (IH (fun q Hq => Hp q (or_intror Hq))).
    now rewrite <- app_assoc.
Qed.

(** The loop stops at the first page that does not normalize. *)
Lemma fetch_pages_raises (records : Z -> list value) (total k : Z)
    (before after : list Z) (payload : value) (e : exn) :
  (forall p, In p before -> page_adds (fetch p) (records p)) ->
  fetch k = Ok payload ->
  format_results payload = Raise e ->
  forall acc,
    snd (fetch_pages requests_get naf nature postal_code departement total
           (before ++ k :: after) acc)
    = Raise e.
Proof.
  intros Hbefore Hk Hbad.
  induction before as [|p rest IH]; intros acc; cbn [fetch_pages app].
  - rewrite !snd_bind. cbn [log snd rbind].
    rewrite (get_companies_ok _ _ _ _ _ _ _ Hk). cbn [snd rbind].
    rewrite snd_bind. cbn [lift snd]. now rewrite Hbad.
  - destruct (get_companies_adds p (records p) (Hbefore p (or_introl eq_refl)))
      as [pl [Hget Hfmt]].
    rewrite !snd_bind. cbn [log snd rbind]. rewrite Hget. cbn [rbind].
    rewrite snd_bind. cbn [lift snd]. rewrite Hfmt. cbn [rbind].
    apply IH. intros q Hq. apply Hbefore. now right.
Qed.

Lemma fetch_pages_shape (total : Z) (pages : list Z) :
  forall acc,
    Forall normal_record acc ->
    match snd (fetch_pages requests_get naf nature postal_code departement total
                 pages acc) with
    | Ok results => Forall normal_record results
    | Raise _ => True
    end.
Proof.
  induction pages as [|p rest IH]; intros acc Hacc; cbn [fetch_pages].
  - exact Hacc.
  - rewrite !snd_bind. cbn [log snd rbind].
    destruct (snd (get_companies requests_get naf nature postal_code departement p))
      as [payload|e]; cbn [rbind]; [|exact I].
    rewrite snd_bind. cbn [lift snd].
    destruct (format_results payload) as [formatted|e] eqn:Hfmt; cbn [rbind];
      [|exact I].
    apply IH. apply Forall_app. split; [exact Hacc|].
    eapply format_results_records; eauto.
Qed.

(** The value returned, read off the first page. *)
Lemma listing_unfold :
  snd listing
  = match
      (data <- snd (get_companies requests_get naf nature postal_code departement 1) ;;
       total_pages <- py_get data "total_pages" (VInt 1) ;;
       first_page <- format_results data ;;
       n <- py_gt_operand total_pages ;;
       all_results <-
         (if n >? 1
          then snd (fetch_pages requests_get naf nature postal_code departement n
                      (py_range 2 (n + 1)) first_page)
          else Ok first_page) ;;
       Ok (listing_of all_results))%result
    with
    | Ok v => Ok v
    | Raise e => Ok (error_list e)
    end.
Proof.
  unfold get_companies_listing. rewrite snd_bind. cbn [log snd rbind].
  rewrite snd_try_except. rewrite snd_bind.
  destruct (snd (get_companies _ _ _ _ _ 1)) as [data|e]; cbn [rbind];
    [|reflexivity].
  rewrite snd_bind. cbn [lift snd].
  destruct (py_get data "total_pages" (VInt 1)) as [tp|e]; cbn [rbind];
    [|reflexivity].
  rewrite snd_bind. cbn [lift snd].
  destruct (format_results data) as [first_page|e]; cbn [rbind]; [|reflexivity].
  rewrite snd_bind. cbn [lift snd].
  destruct (py_gt_operand tp) as [n|e]; cbn [rbind]; [|reflexivity].
  rewrite snd_bind.
  destruct (n >? 1).
  - destruct (snd (fetch_pages _ _ _ _ _ _ _ _)) as [all_results|e]; cbn [rbind];
      reflexivity.
  - reflexivity.
Qed.

(** X1. Whatever the registry does, the call returns: either the mapping
    whose count is the length of its results, every result being a
    ten-field record, or the one-element error list. *)
Theorem listing_returns_mapping_or_error_list :
  (exists results,
     snd listing = Ok (listing_of results) /\ Forall normal_record results)
  \/ (exists e, snd listing = Ok (error_list e)).
Proof.
  rewrite listing_unfold.
  destruct (snd (get_companies _ _ _ _ _ 1)) as [data|e]; cbn [rbind]; [|eauto].
  destruct (py_get data "total_pages" (VInt 1)) as [tp|e]; cbn [rbind]; [|eauto].
  destruct (format_results data) as [first_page|e] eqn:Hfirst; cbn [rbind];
    [|eauto].
  destruct (py_gt_operand tp) as [n|e]; cbn [rbind]; [|eauto].
  apply format_results_records in Hfirst.
  destruct (n >? 1).
  - pose proof (fetch_pages_shape n (py_range 2 (n + 1)) first_page Hfirst) as H.
    destruct (snd (fetch_pages _ _ _ _ _ _ _ _)) as [all_results|e]; cbn [rbind];
      eauto.
  - cbn [rbind]. eauto.
Qed.


(** X3. A later page whose request fails is skipped without a trace in
    the value returned: the listing is the concatenation, in page order,
    of the records of the pages that answered. *)
Theorem listing_skips_failed_pages (payload : value) (n : Z)
    (records : Z -> list value) :
  1 <= n ->
  fetch 1 = Ok payload ->
  py_get payload "total_pages" (VInt 1) = Ok (VInt n) ->
  (forall p, 1 <= p <= n -> page_adds (fetch p) (records p)) ->
  snd listing = Ok (listing_of (flat_map records (py_range 1 (n + 1)))).
Proof.
  intros Hn Hfetch Htotal Hpages. rewrite listing_unfold.
  rewrite (get_companies_ok _ _ _ _ _ _ _ Hfetch). cbn [snd rbind].
  rewrite Htotal. cbn [rbind].
  pose proof (Hpages 1 ltac:(lia)) as Hfirst. unfold page_adds in Hfirst.
  rewrite Hfetch in Hfirst. rewrite Hfirst. cbn [rbind py_gt_operand].
  rewrite (py_range_cons 1 (n + 1)) by lia. cbn [flat_map].
  replace (1 + 1) with 2 by reflexivity.
  destruct (n >? 1) eqn:Hgt.
  - rewrite (fetch_pages_adds records n).
    + reflexivity.
    + intros p Hp. apply py_range_In in Hp. apply Hpages. lia.
  - rewrite (py_range_empty 2 (n + 1)) by lia. cbn [flat_map rbind].
    now rewrite app_nil_r.
Qed.

(** X4. One page that answers but does not normalize costs the whole
    listing: the records of the pages fetched before it are dropped and
    the one-element error list is returned. *)
Theorem listing_lost_on_malformed_page (payload bad : value) (n k : Z)
    (records : Z -> list value) (e : exn) :
  fetch 1 = Ok payload ->
  py_get payload "total_pages" (VInt 1) = Ok (VInt n) ->
  1 <= k <= n ->
  (forall p, 1 <= p < k -> page_adds (fetch p) (records p)) ->
  fetch k = Ok bad ->
  format_results bad = Raise e ->
  snd listing = Ok (error_list e).
Proof.
  intros Hfetch Htotal Hk Hbefore Hbad Hraise. rewrite listing_unfold.
  rewrite (get_companies_ok _ _ _ _ _ _ _ Hfetch). cbn [snd rbind].
  rewrite Htotal. cbn [rbind].
  destruct (Z.eq_dec k 1) as [->|Hne].
  - assert (bad = payload) by congruence. subst bad. now rewrite Hraise.
  - pose proof (Hbefore 1 ltac:(lia)) as Hfirst. unfold page_adds in Hfirst.
    rewrite Hfetch in Hfirst. rewrite Hfirst. cbn [rbind py_gt_operand].
    replace (n >? 1) with true by lia.
    rewrite (py_range_split 2 k (n + 1)) by lia.
    rewrite (py_range_cons k (n + 1)) by lia.
    rewrite (fetch_pages_raises records n k _ _ bad e); auto.
    intros p Hp. apply py_range_In in Hp. apply Hbefore. lia.
Qed.

(** X5. A first payload that is not a JSON object gives the error list
    with the text of the [AttributeError]. *)
Theorem listing_error_list_on_non_object (payload : value) :
  fetch 1 = Ok payload ->
  is_dict payload = false ->
  snd listing
  = Ok (VList [VDict [("error",
         VStr ("'" ++ type_name payload ++ "' object has no attribute 'get'"))]]).
Proof.
  intros Hfetch Hnot. rewrite listing_unfold.
  rewrite (get_companies_ok _ _ _ _ _ _ _ Hfetch). cbn [snd rbind].
  destruct payload; try discriminate; reflexivity.
Qed.

(** X6. A first payload that normalizes but whose [total_pages] is
    neither an integer nor a boolean (a JSON null or string, say) gives the
    error list with the text of the [TypeError]: the records already
    normalized are dropped. *)
Theorem listing_error_list_on_bad_total_pages
    (payload total_pages : value) (records : list value) :
  fetch 1 = Ok payload ->
  py_get payload "total_pages" (VInt 1) = Ok total_pages ->
  format_results payload = Ok records ->
  is_number total_pages = false ->
  snd listing
  = Ok (VList [VDict [("error",
         VStr ("'>' not supported between instances of '"
               ++ type_name total_pages ++ "' and 'int'"))]]).
Proof.
  intros Hfetch Htotal Hfmt Hnum. rewrite listing_unfold.
  rewrite (get_companies_ok _ _ _ _ _ _ _ Hfetch). cbn [snd rbind].
  rewrite Htotal. cbn [rbind]. rewrite Hfmt. cbn [rbind].
  destruct total_pages; try discriminate; reflexivity.
Qed.

End AggregatorFacts.

(** ** Enrichment beyond the claims *)

Lemma Forall2_refl_on {A} (R : A -> A -> Prop) (l : list A) :
  (forall x, R x x) -> Forall2 R l l.
Proof. intros H. induction l; constructor; auto. Qed.

Lemma Forall2_compose {A B C} (R1 : A -> B -> Prop) (R2 : B -> C -> Prop)
    (R : A -> C -> Prop) (l1 : list A) (l2 : list B) (l3 : list C) :
  (forall a b c, R1 a b -> R2 b c -> R a c) ->
  Forall2 R1 l1 l2 -> Forall2 R2 l2 l3 -> Forall2 R l1 l3.
Proof.
  intros H H1. revert l3. induction H1; intros l3 H2; inversion H2; subst;
    constructor; eauto.
Qed.

Lemma Forall2_in_right {A B} (R : A -> B -> Prop) (l1 : list A) (l2 : list B)
    (y : B) :
  Forall2 R l1 l2 -> In y l2 -> exists x, In x l1 /\ R x y.
Proof.
  induction 1 as [|a b r1 r2 Hab _ IH]; simpl; [contradiction|].
  intros [<-|Hy]; [eauto|]. destruct (IH Hy) as [x [Hx Hr]]. eauto.
Qed.

Lemma cleaned_from_fields (company company' : value) (entries : list value) :
  cleaned_from company company' entries ->
  same_fields_but ["dirigeants"] company company'.
Proof.
  intros [c Herr|kv items Herr Hit Hall kept] k Hk; [reflexivity|].
  simpl. apply dict_lookup_set_ne. intros <-. apply Hk. now left.
Qed.

Lemma classified_from_fields (company company' : value) :
  classified_from company company' ->
  same_fields_but ["dirigeants"] company company'.
Proof.
  intros [c|kv l l' Hl Hall] k Hk; [reflexivity|].
  simpl. apply dict_lookup_set_ne. intros <-. apply Hk. now left.
Qed.

Lemma with_id_fields (d : value) : same_fields_but ["id"] d (with_id d).
Proof.
  intros k Hk. destruct d; try reflexivity. simpl.
  apply dict_lookup_set_ne. intros <-. apply Hk. now left.
Qed.

Lemma cleanup_loop_raises (before after : list value) (company : value)
    (cleaned all_dirigeants : list value) (e : exn) :
  cleanup_loop before = Ok (cleaned, all_dirigeants) ->
  cleanup_company company = Raise e ->
  cleanup_loop (before ++ company :: after) = Raise e.
Proof.
  revert cleaned all_dirigeants.
  induction before as [|c rest IH]; intros cleaned all_dirigeants; simpl.
  - intros _ ->. reflexivity.
  - destruct (cleanup_company c) as [head|e0]; simpl; [|discriminate].
    destruct (cleanup_loop rest) as [[cleaned' all']|e0] eqn:Hrest; simpl;
      [|discriminate].
    intros _ Hc. now rewrite (IH _ _ eq_refl Hc).
Qed.

Lemma classify_dirigeant_flagged (origins : list OrigineTurc) (kv : dict) (ident : value) :
  dict_lookup "id" kv = Some ident ->
  classify_dirigeant origins (VDict kv) = Ok (flagged origins (VDict kv)).
Proof.
  intros Hid. unfold classify_dirigeant, flagged.
  rewrite (dict_get_found kv "id" VNone ident Hid).
  destruct origins as [|o os]; [reflexivity|].
  cbn [py_getitem]. rewrite Hid. cbn [rbind].
  now destruct (find_match (o :: os) ident).
Qed.

Lemma classify_dirigeants_flagged (origins : list OrigineTurc) (l : list value) :
  Forall (fun d => is_dict d = true) l ->
  classify_dirigeants origins (map with_id l)
  = (map (flagged origins) (map with_id l), None).
Proof.
  induction 1 as [|d rest Hd _ IH]; simpl; [reflexivity|].
  destruct d as [| | | | |kv]; try discriminate.
  cbn [with_id]. erewrite classify_dirigeant_flagged by apply dict_lookup_set_eq.
  now rewrite IH.
Qed.

Lemma classify_company_cleaned (origins : list OrigineTurc)
    (company company' : value) (entries : list value) :
  cleaned_from company company' entries ->
  is_error_entry company = false ->
  classify_company origins company' = (classified origins company', None)
  /\ dirigeants_of (classified origins company')
     = map (flagged origins) (dirigeants_of company')
  /\ exists l, dirigeants_of company' = map with_id l
               /\ Forall (fun d => is_dict d = true) l.
Proof.
  intros [c Herr|kv items Herr Hit Hall kept] Hne; [congruence|].
  assert (Hkept : Forall (fun d => is_dict d = true) (filter keeps items)).
  { apply Forall_forall. intros d Hd. apply filter_In in Hd.
    rewrite Forall_forall in Hall. now apply Hall. }
  unfold classify_company, classified, dirigeants_of. cbn [py_get rbind].
  rewrite dict_get_set_eq. cbn [py_iter store_dirigeants].
  rewrite !dict_lookup_set_eq. subst kept.
  rewrite (classify_dirigeants_flagged origins _ Hkept).
  repeat split. eauto.
Qed.

Lemma classify_companies_cleaned (origins : list OrigineTurc)
    (companies cleaned : list value) :
  Forall (fun c => is_error_entry c = false) companies ->
  Forall2 (fun c c' => exists entries, cleaned_from c c' entries) companies cleaned ->
  classify_companies origins cleaned = (map (classified origins) cleaned, None).
Proof.
  intros Hne Hall. induction Hall as [|c c' rest rest' [entries Hc] _ IH];
    simpl; [reflexivity|].
  inversion Hne; subst.
  destruct (classify_company_cleaned origins c c' entries Hc) as [-> _]; auto.
  now rewrite IH.
Qed.

Section EnrichmentMore.

Variable responses_parse : list value -> result parsed_response.

Abbreviation enrich := (results_cleanup_and_enrich responses_parse).

(** What is returned, in two steps from the input. *)
Lemma enrichment_steps (companies returned : list value) (check_turkish_names : bool) :
  snd (enrich companies check_turkish_names) = Ok returned ->
  exists cleaned,
    Forall2 (fun c c' => exists entries, cleaned_from c c' entries) companies cleaned
    /\ Forall2 classified_from cleaned returned.
Proof.
  unfold results_cleanup_and_enrich. rewrite snd_bind. cbn [lift snd].
  destruct (cleanup_loop companies) as [[cleaned all_dirigeants]|e] eqn:Hloop;
    cbn [rbind fst snd]; [|discriminate].
  destruct (cleanup_loop_spec _ _ _ Hloop) as [Hall _].
  intros H. exists cleaned. split; [exact Hall|].
  assert (Hsame : returned = cleaned -> Forall2 classified_from cleaned returned).
  { intros ->. apply Forall2_refl_on. constructor. }
  destruct check_turkish_names; [|injection H as <-; now apply Hsame].
  destruct all_dirigeants as [|x r]; [injection H as <-; now apply Hsame|].
  rewrite snd_bind in H. cbn [attempt snd rbind] in H.
  destruct (snd (identify_turkish_names responses_parse (x :: r))) as [origins|e];
    [|injection H as <-; now apply Hsame].
  destruct (classify_companies origins cleaned) as [cleaned' failure] eqn:Hcl.
  apply classify_companies_frame in Hcl.
  destruct failure; injection H as <-; exact Hcl.
Qed.

(** X8. Once the first loop is through, nothing can make the call raise:
    whatever the flag and whatever the client answers or raises, a list is
    returned, with one entry per input entry. *)
Theorem enrichment_returns_after_cleanup
    (companies cleaned all_dirigeants : list value) (check_turkish_names : bool) :
  cleanup_loop companies = Ok (cleaned, all_dirigeants) ->
  exists returned,
    snd (enrich companies check_turkish_names) = Ok returned
    /\ List.length returned = List.length companies.
Proof.
  intros Hloop.
  assert (Hret : exists returned,
            snd (enrich companies check_turkish_names) = Ok returned).
  { unfold results_cleanup_and_enrich. rewrite snd_bind. cbn [lift snd].
    rewrite Hloop. cbn [rbind fst snd].
    destruct check_turkish_names; [|eexists; reflexivity].
    destruct all_dirigeants as [|x r]; [eexists; reflexivity|].
    rewrite snd_bind. cbn [attempt snd rbind].
    destruct (snd (identify_turkish_names responses_parse (x :: r)));
      [|eexists; reflexivity].
    destruct (classify_companies _ cleaned) as [cleaned' [e|]];
      eexists; reflexivity. }
  destruct Hret as [returned Hret]. exists returned. split; [exact Hret|].
  destruct (enrichment_steps _ _ _ Hret) as [mid [H1 H2]].
  apply Forall2_length in H1, H2. congruence.
Qed.

(** X9. Enrichment touches nothing of a record but its director list:
    entry by entry, in order, every other field of what is returned is the
    field of the input. *)
Theorem enrichment_keeps_company_fields
    (companies returned : list value) (check_turkish_names : bool) :
  snd (enrich companies check_turkish_names) = Ok returned ->
  Forall2 (same_fields_but ["dirigeants"]) companies returned.
Proof.
  intros H. destruct (enrichment_steps _ _ _ H) as [cleaned [H1 H2]].
  eapply Forall2_compose; [|exact H1|exact H2].
  intros a b c [entries Hab] Hbc k Hk.
  rewrite (classified_from_fields _ _ Hbc k Hk).
  apply (cleaned_from_fields _ _ _ Hab k Hk).
Qed.

(** X10. For a record that is not an error entry, the directors returned
    are the directors that pass the filter, in their order, each with all
    its fields but the identifier and the origin flag as they were. *)
Theorem enrichment_keeps_director_fields
    (companies returned : list value) (check_turkish_names : bool) :
  snd (enrich companies check_turkish_names) = Ok returned ->
  Forall2 (fun c c' =>
             is_error_entry c = false ->
             Forall2 (same_fields_but ["id"; "origine_turque"])
                     (filter keeps (dirigeants_of c)) (dirigeants_of c'))
          companies returned.
Proof.
  intros H. destruct (enrichment_steps _ _ _ H) as [cleaned [H1 H2]].
  eapply Forall2_compose; [|exact H1|exact H2].
  intros a b c [entries Hab] Hbc Hne.
  pose proof (classified_from_dirigeants _ _ Hbc) as Hds.
  destruct Hab as [a Herr|kv items Herr Hit Hall kept]; [congruence|].
  rewrite <- (iterated_dicts kv items Hit Hall).
  unfold dirigeants_of in Hds at 1. rewrite dict_lookup_set_eq in Hds.
  subst kept. revert Hds. generalize (dirigeants_of c) as ds.
  generalize (filter keeps items) as l. clear.
  induction l as [|d rest IH]; intros ds Hds;
    inversion Hds as [|d1 d' l1 l' Hd Hrest]; subst; constructor; auto.
  intros k Hk. destruct Hd as [_ Hsame].
  rewrite Hsame by (intros ->; apply Hk; simpl; tauto).
  apply with_id_fields. intros [<-|[]]. apply Hk. now left.
Qed.

(** X11. With the flag on and an answer from the client, on input without
    error entries, every director returned carries the flag of the first
    answer with its identifier, or [False] when no answer has it; the
    call logs the count and the tokens and nothing else. *)
Theorem classification_joins_by_identifier
    (companies cleaned all_dirigeants : list value) (response : parsed_response) :
  Forall (fun c => is_error_entry c = false) companies ->
  cleanup_loop companies = Ok (cleaned, all_dirigeants) ->
  all_dirigeants <> [] ->
  responses_parse all_dirigeants = Ok response ->
  enrich companies true
  = ([LogIdentifying (List.length all_dirigeants);
      LogConsumed (total_tokens response)],
     Ok (map (classified (output_parsed_results response)) cleaned))
  /\ Forall (fun c =>
               dirigeants_of (classified (output_parsed_results response) c)
               = map (flagged (output_parsed_results response)) (dirigeants_of c))
            cleaned.
Proof.
  intros Hne Hloop Hall Hanswer.
  destruct (cleanup_loop_spec _ _ _ Hloop) as [Hcleaned _]. split.
  - unfold results_cleanup_and_enrich. rewrite Hloop. cbn [lift bind fst snd].
    destruct all_dirigeants as [|x r]; [congruence|].
    unfold identify_turkish_names, attempt. rewrite Hanswer.
    cbn [log lift bind ret fst snd app].
    rewrite (classify_companies_cleaned _ companies cleaned Hne Hcleaned).
    reflexivity.
  - clear Hloop. induction Hcleaned as [|c c' rest rest' [entries Hc] _ IH];
      constructor; inversion Hne; subst; auto.
    now destruct (classify_company_cleaned (output_parsed_results response)
                    c c' entries Hc) as [_ [-> _]].
Qed.

(** X12. Under the same conditions, two directors returned with the same
    identifier carry the same origin flag, whichever companies they belong
    to: namesakes cannot be told apart. *)
Theorem same_identifier_same_flag
    (companies cleaned all_dirigeants returned : list value)
    (response : parsed_response) :
  Forall (fun c => is_error_entry c = false) companies ->
  cleanup_loop companies = Ok (cleaned, all_dirigeants) ->
  all_dirigeants <> [] ->
  responses_parse all_dirigeants = Ok response ->
  snd (enrich companies true) = Ok returned ->
  forall c1 c2 d1 d2,
    In c1 returned -> In c2 returned ->
    In d1 (dirigeants_of c1) -> In d2 (dirigeants_of c2) ->
    field d1 "id" = field d2 "id" ->
    field d1 "origine_turque" = field d2 "origine_turque".
Proof.
  intros Hne Hloop Hall Hanswer Hret.
  destruct (cleanup_loop_spec _ _ _ Hloop) as [Hcleaned _].
  set (origins := output_parsed_results response).
  assert (Hreturned : returned = map (classified origins) cleaned).
  { revert Hret. unfold results_cleanup_and_enrich. rewrite Hloop.
    cbn [lift bind fst snd].
    destruct all_dirigeants as [|x r]; [congruence|].
    unfold identify_turkish_names, attempt. rewrite Hanswer.
    cbn [log lift bind ret fst snd app].
    rewrite (classify_companies_cleaned _ companies cleaned Hne Hcleaned).
    now intros [= <-]. }
  assert (Hdirector : forall c d, In c returned -> In d (dirigeants_of c) ->
            exists kv, d = flagged origins (VDict kv)).
  { subst returned. intros c d Hc Hd. apply in_map_iff in Hc.
    destruct Hc as [c' [<- Hc']].
    destruct (Forall2_in_right _ _ _ _ Hcleaned Hc') as [c0 [Hc0 [entries Hfrom]]].
    rewrite Forall_forall in Hne.
    destruct (classify_company_cleaned origins c0 c' entries Hfrom (Hne c0 Hc0))
      as [_ [Heq [l [Hl Hdicts]]]].
    rewrite Heq, Hl in Hd. apply in_map_iff in Hd. destruct Hd as [d' [<- Hd']].
    apply in_map_iff in Hd'. destruct Hd' as [d0 [<- Hd0]].
    rewrite Forall_forall in Hdicts. specialize (Hdicts d0 Hd0).
    destruct d0; try discriminate. simpl. eauto. }
  intros c1 c2 d1 d2 Hc1 Hc2 Hd1 Hd2.
  destruct (Hdirector c1 d1 Hc1 Hd1) as [kv1 ->].
  destruct (Hdirector c2 d2 Hc2 Hd2) as [kv2 ->].
  simpl. rewrite !dict_lookup_set_ne by discriminate.
  rewrite !dict_lookup_set_eq. unfold dict_get. now intros ->.
Qed.

(** X13. A record that is not an error entry and whose director list
    cannot be iterated (a JSON null, number or boolean) makes the whole
    call raise, flag on or off: the first loop runs outside the [try]. *)
Theorem enrichment_raises_on_bad_director_list
    (before after cleaned all_dirigeants : list value) (kv : dict) (raw : value)
    (e : exn) (check_turkish_names : bool) :
  cleanup_loop before = Ok (cleaned, all_dirigeants) ->
  dict_lookup "error" kv = None ->
  dict_lookup "dirigeants" kv = Some raw ->
  py_iter raw = Raise e ->
  enrich (before ++ VDict kv :: after) check_turkish_names = ([], Raise e).
Proof.
  intros Hbefore Herr Hraw Hiter.
  unfold results_cleanup_and_enrich.
  rewrite (cleanup_loop_raises before after (VDict kv) cleaned all_dirigeants e);
    auto.
  unfold cleanup_company. cbn [py_contains]. rewrite Herr. cbn [rbind py_get].
  rewrite (dict_get_found kv "dirigeants" _ raw Hraw). now rewrite Hiter.
Qed.

End EnrichmentMore.

(** ** The identifier *)

Lemma hex_digit_is_hex (z : Z) : 0 <= z < 16 -> is_hex_digit (Str.hex_digit z).
Proof.
  intros H.
  assert (Hcases : z = 0 \/ z = 1 \/ z = 2 \/ z = 3 \/ z = 4 \/ z = 5 \/ z = 6
                   \/ z = 7 \/ z = 8 \/ z = 9 \/ z = 10 \/ z = 11 \/ z = 12
                   \/ z = 13 \/ z = 14 \/ z = 15) by lia.
  unfold is_hex_digit.
  repeat (destruct Hcases as [->|Hcases]; [simpl; tauto|]).
  subst z. simpl. tauto.
Qed.

Lemma byte_digits_are_hex (x : Z) :
  is_hex_digit (Str.hex_digit (Z.land x 255 / 16))
  /\ is_hex_digit (Str.hex_digit ((Z.land x 255) mod 16)).
Proof.
  assert (Hrange : 0 <= Z.land x 255 < 256).
  { change 255 with (Z.ones 8). rewrite Z.land_ones by lia.
    apply Z.mod_pos_bound. lia. }
  split; apply hex_digit_is_hex.
  - split; [apply Z.div_pos; lia|apply Z.div_lt_upper_bound; lia].
  - apply Z.mod_pos_bound. lia.
Qed.

(** X15. Every identifier is a string of exactly eight lower-case
    hexadecimal digits, whatever the names hashed. *)
Theorem short_hash_eight_hex_digits (unique_str : string) :
  String.length (short_hash unique_str) = 8%nat
  /\ Forall is_hex_digit (list_ascii_of_string (short_hash unique_str)).
Proof.
  unfold short_hash, MD5.hexdigest, MD5.digest.
  destruct (fold_left MD5.compress _ MD5.init) as [a b c d].
  unfold MD5.word_bytes, Str.take, Str.hex2.
  cbn [app map String.concat append substring list_ascii_of_string String.length].
  split; [reflexivity|].
  repeat (apply Forall_cons; [apply byte_digits_are_hex|]). apply Forall_nil.
Qed.

(** ** The filter *)


Section FilterFacts.

Variable responses_parse : list value -> result parsed_response.

(** X17. However the call goes, no director returned in a record that is
    not an error entry is anything but a person, and none is a liquidator
    or a titular auditor. *)
Theorem no_liquidator_or_titular_auditor_returned
    (companies returned : list value) (check_turkish_names : bool) :
  snd (results_cleanup_and_enrich responses_parse companies check_turkish_names)
  = Ok returned ->
  forall c d,
    In c returned -> is_error_entry c = false -> In d (dirigeants_of c) ->
    field d "type_dirigeant" = Some (VStr "personne physique")
    /\ field d "qualite" <> Some (VStr "Liquidateur")
    /\ field d "qualite" <> Some (VStr "Commissaire aux comptes titulaire").
Proof.
  intros H c d Hc Herr Hd.
  pose proof (enriched_dirigeants_pass_filter responses_parse _ _ _ H) as Hall.
  rewrite Forall_forall in Hall. destruct (Hall c Hc Herr) as [_ Hpass].
  rewrite Forall_forall in Hpass. destruct (Hpass d Hd) as [Htype Hqual].
  split; [exact Htype|]. split; intros Heq; rewrite Heq in Hqual; discriminate.
Qed.

End FilterFacts.

(** ** The CSV exporter beyond the claims *)

Lemma dict_to_row_cells (rowdict : dict) (r : row) :
  dict_to_row rowdict = Ok r -> List.length r = 14%nat.
Proof.
  unfold dict_to_row. destruct (forallb _ rowdict); [|discriminate].
  intros [= <-]. reflexivity.
Qed.

Lemma row_builds (dirigeant : value) (fields : dict) (company : value) :
  company_data company = Ok fields ->
  match (own <- dirigeant_data dirigeant ;;
         dict_to_row (dict_merge own fields))%result with
  | Ok r => List.length r = 14%nat
  | Raise e => exn_kind e = AttributeError
  end.
Proof.
  destruct company as [| | | | |c]; try discriminate. intros [= <-].
  destruct dirigeant; reflexivity.
Qed.

Lemma write_dirigeants_sound (company : value) (fields : dict)
    (dirigeants : list value) :
  company_data company = Ok fields ->
  Forall (fun r => List.length r = 14%nat) (fst (write_dirigeants fields dirigeants))
  /\ match snd (write_dirigeants fields dirigeants) with
     | Ok _ => True
     | Raise e => exn_kind e = AttributeError
     end.
Proof.
  intros Hc. induction dirigeants as [|d rest [IHrows IHout]]; cbn [write_dirigeants].
  - split; [constructor|exact I].
  - pose proof (row_builds d fields company Hc) as Hrow.
    destruct (own <- dirigeant_data d ;; dict_to_row (dict_merge own fields))%result
      as [r|e].
    + destruct (write_dirigeants fields rest) as [rows outcome].
      split; [constructor; assumption|exact IHout].
    + split; [constructor|exact Hrow].
Qed.

Lemma write_companies_sound (companies : list value) :
  Forall (fun r => List.length r = 14%nat) (fst (write_companies companies))
  /\ match snd (write_companies companies) with
     | Ok _ => True
     | Raise e => exn_kind e = AttributeError \/ exn_kind e = TypeError
     end.
Proof.
  induction companies as [|c rest [IHrows IHout]]; cbn [write_companies].
  - split; [constructor|exact I].
  - destruct (company_data c) as [fields|e] eqn:Hc; cbn [rbind].
    + destruct c as [| | | | |kv]; try discriminate. cbn [py_get rbind].
      destruct (py_iter (dict_get kv "dirigeants" (VList []))) as [items|e] eqn:Hit;
        cbn [rbind].
      * destruct (write_dirigeants_sound (VDict kv) fields items Hc) as [Hrows Hout].
        destruct (write_dirigeants fields items) as [rows [u|e]]; cbn [fst snd] in *.
        -- destruct (write_companies rest) as [rows' outcome]. cbn [fst snd] in *.
           split; [now apply Forall_app|exact IHout].
        -- split; [exact Hrows|now left].
      * split; [constructor|]. right.
        destruct (dict_get kv "dirigeants" (VList [])); try discriminate;
          injection Hit as <-; reflexivity.
    + split; [constructor|]. left. destruct c; try discriminate;
        injection Hc as <-; reflexivity.
Qed.


(** X19. The only exceptions the export itself raises are the
    [AttributeError] of an entry or a director that is not a record and the
    [TypeError] of a director list that cannot be iterated; the writer's
    check for unknown field names never fires. *)
Theorem write_csv_raises_attribute_or_type_error
    (companies : list value) (filename : string) (e : exn) :
  snd (csv_outcome (write_csv companies filename)) = Raise e ->
  exn_kind e = AttributeError \/ exn_kind e = TypeError.
Proof.
  unfold write_csv. pose proof (write_companies_sound companies) as [_ Hout].
  destruct (write_companies companies) as [rows [u|e0]]; cbn [csv_outcome snd] in *.
  - discriminate.
  - intros [= <-]. exact Hout.
Qed.

Lemma write_companies_app (before rest : list value) :
  forallb company_wf before = true ->
  write_companies (before ++ rest)
  = (flat_map (fun c => map (row_of c) (dirigeants_of c)) before
       ++ fst (write_companies rest),
     snd (write_companies rest)).
Proof.
  induction before as [|c before IH]; intros Hwf.
  - simpl. now destruct (write_companies rest).
  - simpl in Hwf. apply andb_prop in Hwf. destruct Hwf as [Hc Hrest].
    pose proof (write_companies_records [c]) as Hone. simpl in Hone.
    rewrite Hc in Hone. specialize (Hone eq_refl).
    rewrite app_nil_r in Hone.
    cbn [app write_companies flat_map]. cbn [write_companies] in Hone.
    destruct (fields <- company_data c ;;
              raw <- py_get c "dirigeants" (VList []) ;;
              items <- py_iter raw ;; Ok (fields, items))%result
      as [[fields items]|e]; [|discriminate].
    destruct (write_dirigeants fields items) as [rows [u|e]]; [|discriminate].
    rewrite app_nil_r in Hone. injection Hone as ->.
    rewrite (IH Hrest). now rewrite app_assoc.
Qed.

(** X20. An entry that is not a record stops the export with an
    [AttributeError]: the rows of the entries before it are in the file,
    nothing of the entries after it is, and the success message is not
    logged. *)
Theorem write_csv_stops_at_non_record
    (before after : list value) (bad : value) (filename : string) :
  forallb company_wf before = true ->
  is_dict bad = false ->
  csv_rows (write_csv (before ++ bad :: after) filename)
  = map VStr headers :: flat_map (fun c => map (row_of c) (dirigeants_of c)) before
  /\ csv_outcome (write_csv (before ++ bad :: after) filename)
     = ([], Raise (Exn AttributeError
                     ("'" ++ type_name bad ++ "' object has no attribute 'get'"))).
Proof.
  intros Hwf Hbad. unfold write_csv.
  rewrite (write_companies_app before (bad :: after) Hwf).
  destruct bad; try discriminate; cbn; rewrite app_nil_r; split; reflexivity.
Qed.

(** ** Enrichment followed by the export *)

Section EnrichThenExport.

Variable responses_parse : list value -> result parsed_response.

Lemma returned_not_error (companies returned : list value) (check_turkish_names : bool) :
  Forall (fun c => is_error_entry c = false) companies ->
  snd (results_cleanup_and_enrich responses_parse companies check_turkish_names)
  = Ok returned ->
  Forall (fun c => is_error_entry c = false) returned.
Proof.
  intros Hne H.
  destruct (enrichment_steps _ _ _ _ H) as [cleaned [Hclean Hclass]].
  assert (H1 : Forall (fun c => is_error_entry c = false) cleaned).
  { clear Hclass H. revert Hne.
    induction Hclean as [|c c' r r' [entries Hc] _ IH]; intros Hne; [constructor|].
    inversion Hne as [|x l Hx Hl]; subst. constructor; [|now apply IH].
    now rewrite (cleaned_from_error _ _ _ Hc). }
  clear Hclean H Hne. revert H1.
  induction Hclass as [|c c' r r' Hc _ IH]; intros H1; [constructor|].
  inversion H1 as [|x l Hx Hl]; subst. constructor; [|now apply IH].
  now rewrite (classified_from_error _ _ Hc).
Qed.

(** X21. What enrichment returns for input without error entries is
    always exported in full: the export completes, logs success, and
    writes one row per director returned. *)
Theorem enriched_list_exports_completely
    (companies returned : list value) (check_turkish_names : bool) (filename : string) :
  Forall (fun c => is_error_entry c = false) companies ->
  snd (results_cleanup_and_enrich responses_parse companies check_turkish_names)
  = Ok returned ->
  csv_outcome (write_csv returned filename) = ([LogCsvWritten filename], Ok tt)
  /\ data_rows (write_csv returned filename)
     = flat_map (fun c => map (row_of c) (dirigeants_of c)) returned.
Proof.
  intros Hne H. pose proof (returned_not_error _ _ _ Hne H) as Hret.
  pose proof (enriched_dirigeants_pass_filter _ _ _ _ H) as Hpass.
  assert (Hwf : forallb company_wf returned = true).
  { apply forallb_forall. intros c Hc. rewrite Forall_forall in Hpass, Hret.
    now apply Hpass; [|apply Hret]. }
  destruct (write_csv_one_row_per_director_aux returned filename Hwf) as [Hrows Hout].
  now split.
Qed.

(** X22. For input without error entries, the file has exactly as many
    data rows as there were names in the list prepared for the
    classifier. *)
Theorem one_row_per_name_checked
    (companies cleaned all_dirigeants returned : list value)
    (check_turkish_names : bool) (filename : string) :
  Forall (fun c => is_error_entry c = false) companies ->
  cleanup_loop companies = Ok (cleaned, all_dirigeants) ->
  snd (results_cleanup_and_enrich responses_parse companies check_turkish_names)
  = Ok returned ->
  List.length (data_rows (write_csv returned filename))
  = List.length all_dirigeants.
Proof.
  intros Hne Hloop H. pose proof (returned_not_error _ _ _ Hne H) as Hret.
  pose proof (enriched_dirigeants_pass_filter _ _ _ _ H) as Hpass.
  assert (Hwf : forallb company_wf returned = true).
  { apply forallb_forall. intros c Hc. rewrite Forall_forall in Hpass, Hret.
    now apply Hpass; [|apply Hret]. }
  destruct (write_csv_one_row_per_director_aux returned filename Hwf) as [-> _].
  destruct (cleanup_loop_spec _ _ _ Hloop) as [Hclean ->].
  assert (Hrel : Forall2 (fun c' c'' =>
            List.length (entries_of c') = List.length (dirigeants_of c''))
            cleaned returned).
  { revert H. unfold results_cleanup_and_enrich. rewrite snd_bind, Hloop.
    cbn [lift snd rbind fst]. intros H.
    assert (Hclass : Forall2 classified_from cleaned returned).
    { destruct check_turkish_names;
        [|injection H as <-; apply Forall2_refl_on; constructor].
      destruct (flat_map entries_of cleaned) as [|x r];
        [injection H as <-; apply Forall2_refl_on; constructor|].
      rewrite snd_bind in H. cbn [attempt snd rbind] in H.
      destruct (snd (identify_turkish_names responses_parse (x :: r)))
        as [origins|e];
        [|injection H as <-; apply Forall2_refl_on; constructor].
      destruct (classify_companies origins cleaned) as [cleaned' failure] eqn:Hcl.
      apply classify_companies_frame in Hcl.
      destruct failure; injection H as <-; exact Hcl. }
    clear H Hloop Hpass Hwf Hret. revert returned Hclass Hne.
    induction Hclean as [|c c' r r' [entries Hc] _ IH]; intros returned Hclass Hne;
      inversion Hclass as [|x y l l' Hxy Hrest]; subst; constructor.
    - inversion Hne as [|x0 l0 Hx0 Hl0]; subst.
      unfold entries_of. rewrite (cleaned_from_error _ _ _ Hc), Hx0.
      rewrite length_map.
      apply (Forall2_length (classified_from_dirigeants _ _ Hxy)).
    - inversion Hne; subst. now apply IH. }
  rewrite !length_flat_map_sum. f_equal. clear - Hrel.
  induction Hrel as [|c' c'' r r' Hcc _ IH]; simpl; [reflexivity|].
  rewrite length_map, <- Hcc. f_equal. exact IH.
Qed.

End EnrichThenExport.

(** ** The command-line run *)

Lemma dict_lookup_not_key (k : string) (kv : dict) :
  ~ In k (map fst kv) -> dict_lookup k kv = None.
Proof.
  induction kv as [|[k' v] r IH]; simpl; [reflexivity|].
  intros H. destruct (String.eqb k k') eqn:E.
  - apply String.eqb_eq in E. subst. tauto.
  - apply IH. tauto.
Qed.

Lemma normal_record_not_error (v : value) :
  normal_record v -> is_error_entry v = false.
Proof.
  intros [fields [-> Hkeys]]. unfold is_error_entry. simpl.
  rewrite dict_lookup_not_key; [reflexivity|].
  rewrite Hkeys. simpl. intuition discriminate.
Qed.

Section MainFacts.

Variable requests_get : params -> result value.
Variable responses_parse : list value -> result parsed_response.
Variable now : string.
Variable a : answers.

Abbreviation run_listing :=
  (get_companies_listing requests_get (answer_naf a) None
     (Some (answer_departement a)) (answer_allow_entrepreneur_individuel a)).
Abbreviation run_filename :=
  (output_filename now (answer_naf a) (answer_departement a)).
Abbreviation run_main := (main requests_get responses_parse now a).

Lemma main_unfold :
  snd run_main
  = (data <- snd run_listing ;;
     results <- py_getitem data "results" ;;
     companies <- py_iter results ;;
     cleaned_data <- snd (results_cleanup_and_enrich responses_parse companies
                            (answer_check_turkish_names a)) ;;
     Ok (write_csv cleaned_data run_filename))%result.
Proof.
  unfold main. rewrite snd_bind.
  destruct (snd run_listing) as [data|e]; cbn [rbind]; [|reflexivity].
  rewrite snd_bind. cbn [lift snd].
  destruct (py_getitem data "results") as [results|e]; cbn [rbind]; [|reflexivity].
  rewrite snd_bind. cbn [lift snd].
  destruct (py_iter results) as [companies|e]; cbn [rbind]; [|reflexivity].
  rewrite snd_bind.
  destruct (snd (results_cleanup_and_enrich _ companies _)); reflexivity.
Qed.

Lemma listing_value_shape (v : value) :
  snd run_listing = Ok v ->
  (exists results, v = listing_of results /\ Forall normal_record results)
  \/ (exists e, v = error_list e).
Proof.
  rewrite listing_unfold.
  destruct (snd (get_companies _ _ _ _ _ 1)) as [data|e]; cbn [rbind];
    [|intros [= <-]; eauto].
  destruct (py_get data "total_pages" (VInt 1)) as [tp|e]; cbn [rbind];
    [|intros [= <-]; eauto].
  destruct (format_results data) as [first_page|e] eqn:Hfirst; cbn [rbind];
    [|intros [= <-]; eauto].
  destruct (py_gt_operand tp) as [n|e]; cbn [rbind]; [|intros [= <-]; eauto].
  apply format_results_records in Hfirst.
  destruct (n >? 1).
  - pose proof (fetch_pages_shape requests_get (answer_naf a) None
                  (Some (answer_departement a))
                  (answer_allow_entrepreneur_individuel a)
                  n (py_range 2 (n + 1)) first_page Hfirst) as H.
    destruct (snd (fetch_pages _ _ _ _ _ _ _ _)) as [all_results|e]; cbn [rbind];
      intros [= <-]; eauto.
  - cbn [rbind]. intros [= <-]. eauto.
Qed.

(** X23. When the registry cannot be reached, the run still goes through
    to the end: whatever the flag and the client, it writes a file holding
    the header row alone and logs success. *)
Theorem run_with_registry_down_writes_header_only (e : exn) :
  requests_get (request (answer_naf a)
                  (type_entreprises (answer_allow_entrepreneur_individuel a))
                  None (Some (answer_departement a)) 1)
  = Raise e ->
  exists run,
    snd run_main = Ok run
    /\ csv_filename run = run_filename
    /\ csv_rows run = [map VStr headers]
    /\ csv_outcome run = ([LogCsvWritten run_filename], Ok tt).
Proof.
  intros Hdown. exists (write_csv [] run_filename).
  split; [|repeat split]. rewrite main_unfold, listing_unfold.
  rewrite (get_companies_failed _ _ _ _ _ _ _ Hdown). cbn [snd rbind].
  change (py_get _ "total_pages" (VInt 1)) with (@Ok value (VInt 1)).
  cbn [rbind].
  change (format_results _) with (@Ok (list value) []). cbn.
  now destruct (answer_check_turkish_names a).
Qed.

(** X24. When the aggregator falls back to its error list, the run ends
    on the [TypeError] of indexing a list with ["results"], before any
    file is written. *)
Theorem run_raises_on_error_list (e : exn) :
  snd run_listing = Ok (error_list e) ->
  snd run_main
  = Raise (Exn TypeError "list indices must be integers or slices, not str").
Proof. intros H. rewrite main_unfold, H. reflexivity. Qed.

(** X25. A run that reaches the export completes it, and no row of the
    file is the row of a liquidator or of a titular auditor. *)
Theorem run_writes_no_liquidator (run : csv_run) :
  snd run_main = Ok run ->
  csv_outcome run = ([LogCsvWritten run_filename], Ok tt)
  /\ Forall (fun r =>
               cell r "dirigeant_qualite" <> Some (VStr "Liquidateur")
               /\ cell r "dirigeant_qualite"
                  <> Some (VStr "Commissaire aux comptes titulaire"))
            (data_rows run).
Proof.
  rewrite main_unfold.
  destruct (snd run_listing) as [data|e] eqn:Hlisting; cbn [rbind]; [|discriminate].
  destruct (listing_value_shape data Hlisting) as [[results [-> Hrecords]]|[e ->]];
    [|discriminate].
  cbn [py_getitem listing_of dict_lookup String.eqb Ascii.eqb Bool.eqb rbind py_iter].
  destruct (snd (results_cleanup_and_enrich responses_parse results _))
    as [returned|e] eqn:Henrich; cbn [rbind]; [|discriminate].
  intros [= <-].
  destruct (enrichment_steps _ _ _ _ Henrich) as [cleaned [Hclean Hclass]].
  pose proof (enriched_dirigeants_pass_filter _ _ _ _ Henrich) as Hpass.
  assert (Hne : Forall (fun c => is_error_entry c = false) returned).
  { assert (H1 : Forall (fun c => is_error_entry c = false) cleaned).
    { clear Hclass Hpass Henrich Hlisting. revert Hrecords.
      induction Hclean as [|c c' r r' [entries Hc] _ IH]; intros Hrecords;
        [constructor|].
      inversion Hrecords as [|x l Hx Hl]; subst. constructor; [|now apply IH].
      rewrite (cleaned_from_error _ _ _ Hc). now apply normal_record_not_error. }
    clear Hclean Hpass Henrich Hlisting Hrecords. revert H1.
    induction Hclass as [|c c' r r' Hc _ IH]; intros H1; [constructor|].
    inversion H1 as [|x l Hx Hl]; subst. constructor; [|now apply IH].
    now rewrite (classified_from_error _ _ Hc). }
  assert (Hwf : forallb company_wf returned = true).
  { apply forallb_forall. intros c Hc. rewrite Forall_forall in Hpass, Hne.
    now apply Hpass; [|apply Hne]. }
  destruct (write_csv_one_row_per_director_aux returned run_filename Hwf)
    as [Hrows Hout].
  split; [exact Hout|]. rewrite Hrows.
  apply Forall_forall. intros r Hr. apply in_flat_map in Hr.
  destruct Hr as [c [Hc Hr]]. apply in_map_iff in Hr. destruct Hr as [d [<- Hd]].
  rewrite Forall_forall in Hpass, Hne.
  destruct (Hpass c Hc (Hne c Hc)) as [Hcwf Hds].
  rewrite Forall_forall in Hds. destruct (Hds d Hd) as [_ Hqual].
  destruct c as [| | | | |ckv]; try discriminate.
  assert (Hdict : is_dict d = true).
  { unfold company_wf, dirigeants_of in *.
    destruct (dict_lookup "dirigeants" ckv) as [[| | | |l|]|]; try contradiction;
      try discriminate.
    rewrite forallb_forall in Hcwf. now apply Hcwf. }
  destruct d as [| | | | |dkv]; try discriminate.
  change (cell (row_of (VDict ckv) (VDict dkv)) "dirigeant_qualite")
    with (Some (dict_get dkv "qualite" (VStr ""))).
  unfold dict_get. simpl in Hqual.
  destruct (dict_lookup "qualite" dkv) as [q|]; simpl in Hqual.
  - split; intros [= ->]; discriminate.
  - split; discriminate.
Qed.

End MainFacts.

(** * Further runs on sample data *)


Lemma listing_skips_failed_pages_witness :
  snd (get_companies_listing flaky_registry "43.99A" None (Some "75") false)
  = Ok (listing_of (flat_map flaky_records (py_range 1 (2 + 1)))).
Proof.
  apply (listing_skips_failed_pages flaky_registry "43.99A" None (Some "75") false
           (sample_page 1) 2 flaky_records).
  - lia.
  - reflexivity.
  - reflexivity.
  - intros p Hp. assert (Hcases : p = 1 \/ p = 2) by lia.
    destruct Hcases as [-> | ->]; reflexivity.
Defined.

Lemma listing_lost_on_malformed_page_witness :
  snd (get_companies_listing broken_registry "43.99A" None (Some "75") false)
  = Ok (error_list (Exn AttributeError "'NoneType' object has no attribute 'get'")).
Proof.
  apply (listing_lost_on_malformed_page broken_registry "43.99A" None (Some "75")
           false (sample_page 1) broken_page 2 2 sample_records).
  - reflexivity.
  - reflexivity.
  - lia.
  - intros p Hp. assert (p = 1) by lia. subst p. reflexivity.
  - reflexivity.
  - reflexivity.
Defined.

Lemma listing_error_list_on_non_object_witness :
  snd (get_companies_listing array_registry "43.99A" None (Some "75") false)
  = Ok (VList [VDict [("error", VStr "'list' object has no attribute 'get'")]]).
Proof.
  apply (listing_error_list_on_non_object array_registry "43.99A" None (Some "75")
           false (VList [])); reflexivity.
Defined.

Lemma listing_error_list_on_bad_total_pages_witness :
  snd (get_companies_listing null_total_registry "43.99A" None (Some "75") false)
  = Ok (VList [VDict [("error",
         VStr "'>' not supported between instances of 'NoneType' and 'int'")]]).
Proof.
  apply (listing_error_list_on_bad_total_pages null_total_registry "43.99A" None
           (Some "75") false null_total_page VNone []); reflexivity.
Defined.

Lemma format_results_raises_on_bad_siege_witness :
  format_results broken_page
  = Raise (Exn AttributeError "'NoneType' object has no attribute 'get'").
Proof.
  apply (format_results_raises_on_bad_siege broken_page [] [] [] broken_company VNone);
    reflexivity.
Defined.

Lemma enrichment_returns_after_cleanup_witness :
  exists returned,
    snd (results_cleanup_and_enrich answering_client mixed_companies true)
    = Ok returned
    /\ List.length returned = List.length mixed_companies.
Proof.
  apply (enrichment_returns_after_cleanup answering_client mixed_companies
           mixed_cleaned mixed_entries true).
  vm_compute. reflexivity.
Defined.

Lemma enrichment_keeps_company_fields_witness :
  Forall2 (same_fields_but ["dirigeants"]) mixed_companies mixed_cleaned.
Proof.
  apply (enrichment_keeps_company_fields failing_client mixed_companies
           mixed_cleaned true).
  vm_compute. reflexivity.
Defined.

Lemma enrichment_keeps_director_fields_witness :
  Forall2 (fun c c' =>
             is_error_entry c = false ->
             Forall2 (same_fields_but ["id"; "origine_turque"])
                     (filter keeps (dirigeants_of c)) (dirigeants_of c'))
          mixed_companies mixed_cleaned.
Proof.
  apply (enrichment_keeps_director_fields failing_client mixed_companies
           mixed_cleaned true).
  vm_compute. reflexivity.
Defined.

Lemma classification_joins_by_identifier_witness :
  results_cleanup_and_enrich answering_client shared_director_companies true
  = ([LogIdentifying 2; LogConsumed 42],
     Ok (map (classified known_origins) shared_director_cleaned))
  /\ Forall (fun c =>
               dirigeants_of (classified known_origins c)
               = map (flagged known_origins) (dirigeants_of c))
            shared_director_cleaned.
Proof.
  apply (classification_joins_by_identifier answering_client
           shared_director_companies shared_director_cleaned
           shared_director_entries answering_response).
  - repeat constructor.
  - vm_compute. reflexivity.
  - discriminate.
  - reflexivity.
Defined.

Lemma same_identifier_same_flag_witness :
  field (flagged known_origins (identified gerant "822e7662")) "origine_turque"
  = field (flagged known_origins (identified gerant "822e7662")) "origine_turque".
Proof.
  apply (same_identifier_same_flag answering_client shared_director_companies
           shared_director_cleaned shared_director_entries
           (map (classified known_origins) shared_director_cleaned)
           answering_response
           ltac:(repeat constructor)
           ltac:(vm_compute; reflexivity)
           ltac:(discriminate)
           ltac:(reflexivity)
           ltac:(vm_compute; reflexivity)
           (classified known_origins
              (sample_company "111111111" "ALPHA" [identified gerant "822e7662"]))
           (classified known_origins
              (sample_company "222222222" "BETA" [identified gerant "822e7662"]))).
  - left. reflexivity.
  - right. left. reflexivity.
  - left. reflexivity.
  - left. reflexivity.
  - reflexivity.
Defined.

Lemma enrichment_raises_on_bad_director_list_witness :
  results_cleanup_and_enrich answering_client ([] ++ VDict null_directors :: []) true
  = ([], Raise (Exn TypeError "'NoneType' object is not iterable")).
Proof.
  apply (enrichment_raises_on_bad_director_list answering_client [] [] [] []
           null_directors VNone (Exn TypeError "'NoneType' object is not iterable")
           true); reflexivity.
Defined.

Lemma no_liquidator_or_titular_auditor_returned_witness :
  field (identified gerant "822e7662") "type_dirigeant"
  = Some (VStr "personne physique")
  /\ field (identified gerant "822e7662") "qualite" <> Some (VStr "Liquidateur")
  /\ field (identified gerant "822e7662") "qualite"
     <> Some (VStr "Commissaire aux comptes titulaire").
Proof.
  apply (no_liquidator_or_titular_auditor_returned failing_client mixed_companies
           mixed_cleaned true)
    with (c := sample_company "111111111" "ALPHA" [identified gerant "822e7662"]).
  - vm_compute. reflexivity.
  - left. reflexivity.
  - reflexivity.
  - left. reflexivity.
Defined.

Lemma write_csv_raises_attribute_or_type_error_witness :
  exn_kind (Exn AttributeError "'NoneType' object has no attribute 'get'")
  = AttributeError
  \/ exn_kind (Exn AttributeError "'NoneType' object has no attribute 'get'")
     = TypeError.
Proof.
  apply (write_csv_raises_attribute_or_type_error [VNone] "companies.csv").
  reflexivity.
Defined.

Lemma write_csv_stops_at_non_record_witness :
  csv_rows (write_csv (mixed_cleaned ++ VStr "error" :: []) "companies.csv")
  = map VStr headers
    :: flat_map (fun c => map (row_of c) (dirigeants_of c)) mixed_cleaned
  /\ csv_outcome (write_csv (mixed_cleaned ++ VStr "error" :: []) "companies.csv")
     = ([], Raise (Exn AttributeError "'str' object has no attribute 'get'")).
Proof.
  apply (write_csv_stops_at_non_record mixed_cleaned [] (VStr "error")
           "companies.csv"); reflexivity.
Defined.

Lemma nationalite_never_written_witness :
  Forall (fun r => cell r "dirigeant_nationalite" = Some (VStr ""))
         (data_rows (write_csv mixed_cleaned "companies.csv")).
Proof.
  apply (nationalite_never_written mixed_cleaned "companies.csv"). reflexivity.
Defined.

Lemma enriched_list_exports_completely_witness :
  csv_outcome (write_csv mixed_cleaned "companies.csv")
  = ([LogCsvWritten "companies.csv"], Ok tt)
  /\ data_rows (write_csv mixed_cleaned "companies.csv")
     = flat_map (fun c => map (row_of c) (dirigeants_of c)) mixed_cleaned.
Proof.
  apply (enriched_list_exports_completely failing_client mixed_companies
           mixed_cleaned true "companies.csv").
  - repeat constructor.
  - vm_compute. reflexivity.
Defined.

Lemma one_row_per_name_checked_witness :
  List.length (data_rows (write_csv mixed_cleaned "companies.csv"))
  = List.length mixed_entries.
Proof.
  apply (one_row_per_name_checked failing_client mixed_companies mixed_cleaned
           mixed_entries mixed_cleaned true "companies.csv").
  - repeat constructor.
  - vm_compute. reflexivity.
  - vm_compute. reflexivity.
Defined.

Lemma run_with_registry_down_writes_header_only_witness :
  exists run,
    snd (main failing_registry answering_client sample_now sample_answers) = Ok run
    /\ csv_filename run = "companies_43.99A_75_20260102030405.csv"
    /\ csv_rows run = [map VStr headers]
    /\ csv_outcome run
       = ([LogCsvWritten "companies_43.99A_75_20260102030405.csv"], Ok tt).
Proof.
  apply (run_with_registry_down_writes_header_only failing_registry answering_client
           sample_now sample_answers
           (Exn RequestException "Read timed out. (read timeout=10)")).
  reflexivity.
Defined.

Lemma run_raises_on_error_list_witness :
  snd (main array_registry answering_client sample_now sample_answers)
  = Raise (Exn TypeError "list indices must be integers or slices, not str").
Proof.
  apply (run_raises_on_error_list array_registry answering_client sample_now
           sample_answers (Exn AttributeError "'list' object has no attribute 'get'")).
  reflexivity.
Defined.

Lemma run_writes_no_liquidator_witness :
  csv_outcome director_run
  = ([LogCsvWritten "companies_43.99A_75_20260102030405.csv"], Ok tt)
  /\ Forall (fun r =>
               cell r "dirigeant_qualite" <> Some (VStr "Liquidateur")
               /\ cell r "dirigeant_qualite"
                  <> Some (VStr "Commissaire aux comptes titulaire"))
            (data_rows director_run).
Proof.
  apply (run_writes_no_liquidator director_registry failing_client sample_now
           sample_answers director_run).
  vm_compute. reflexivity.
Defined.

(** The run against [director_registry] writes the manager's row only. *)
Example director_run_rows :
  map (map cell_text) (data_rows director_run)
  = [["YILMAZ"; "Mehmet"; "1975-03"; "Gérant"; "False"; "";
      "111111111"; "ALPHA"; ""; ""; "75002"; ""; ""; ""]].
Proof. vm_compute. reflexivity. Qed.
